(** * redash: the "Microsoft SQL Server - Multiple Datasources" query runner

    A shallow embedding of [redash/query_runner/mssql_all_datasources.py]
    and the properties of its type table, of the single-target executor
    [run_query_on_datasource], of the fan-out loop of [run_query] and of
    the schema fold of [_get_tables].

    Python control flow (exceptions, [try]/[except]/[finally], local
    variables that may be unbound) is written in a small monad [Py] that
    threads the locals of the running function and records every call
    that leaves the module (driver calls, logging) in a trace. *)

From Stdlib Require Import ZArith String List Lia.
From stdpp Require Import base option list gmap strings fin_maps pretty.

Local Open Scope string_scope.
Local Open Scope list_scope.

(** ** Python values *)

Module Py.

(** Scalars that travel in result rows.  [VUuid] is a [uuid.UUID], the one
    value [MSSQLJSONEncoder.default] renders itself (as [str(o)]); the
    scalars left to the parent [JSONEncoder] of [redash.utils] (floats,
    decimals, dates) are not part of this value model. *)
Inductive scalar :=
| VNone
| VBool (b : bool)
| VInt (z : Z)
| VStr (s : string)
| VUuid (s : string).

(** Objects found in the [args] tuple of a driver exception. *)
#[local] Set Warnings "-register-all".
Inductive pyobj :=
| ONone
| OInt (z : Z)
| OStr (s : string)
| OTuple (items : list pyobj).

(** The exception classes the module raises, catches or lets through.
    [KeyboardInterrupt] and [SystemExit] derive from [BaseException] only;
    every other class derives from [Exception]. *)
Inductive exn :=
| PymssqlError (args : list pyobj)
| KeyboardInterrupt
| SystemExit
| UnboundLocalError (var : string)
| IndexError
| TypeError
| KeyError (key : string)
| PyException (msg : string)
| OtherException (descr : string).

Definition is_Exception (e : exn) : bool :=
  match e with
  | KeyboardInterrupt | SystemExit => false
  | _ => true
  end.

Inductive outcome (A : Type) :=
| Ret (a : A)
| Raise (e : exn).
Arguments Ret {A} a.
Arguments Raise {A} e.

Definition returned {A} (o : outcome A) : bool :=
  match o with Ret _ => true | Raise _ => false end.

(** [str(x)], as used by [u'{}'.format(x)]. *)
Definition py_str (v : scalar) : string :=
  match v with
  | VNone => "None"
  | VBool true => "True"
  | VBool false => "False"
  | VInt z => pretty z
  | VStr s => s
  | VUuid s => s
  end.

(** [a == b] on scalars: booleans are the integers 0 and 1. *)
Definition as_int (v : scalar) : option Z :=
  match v with
  | VBool b => Some (if b then 1 else 0)%Z
  | VInt z => Some z
  | _ => None
  end.

Definition py_eq (a b : scalar) : bool :=
  match a, b with
  | VNone, VNone => true
  | VStr s, VStr t => String.eqb s t
  | VUuid s, VUuid t => String.eqb s t
  | _, _ =>
      match as_int a, as_int b with
      | Some x, Some y => Z.eqb x y
      | _, _ => false
      end
  end.

(** The key under which a dict files a scalar: [True] and [1] (and [False]
    and [0]) hash and compare alike. *)
Definition dict_key (v : scalar) : scalar :=
  match v with
  | VBool b => VInt (if b then 1 else 0)
  | _ => v
  end.

(** [t[i]] on the [args] tuple of an exception. *)
Definition tuple_getitem (t : list pyobj) (i : nat) : outcome pyobj :=
  match nth_error t i with
  | Some x => Ret x
  | None => Raise IndexError
  end.

(** [x[i]] on an arbitrary object: tuples and strings are indexable. *)
Definition obj_getitem (x : pyobj) (i : nat) : outcome pyobj :=
  match x with
  | OTuple items => tuple_getitem items i
  | OStr s =>
      match String.get i s with
      | Some c => Ret (OStr (String c EmptyString))
      | None => Raise IndexError
      end
  | ONone | OInt _ => Raise TypeError
  end.

(** [dict(pairs)]: a later pair overwrites an earlier one with the same
    key. *)
Definition py_dict {V} (pairs : list (string * V)) : gmap string V :=
  foldl (λ m kv, <[kv.1 := kv.2]> m) ∅ pairs.

(** [d[k]] on a dict with string keys. *)
Definition dict_getitem {V} (d : gmap string V) (k : string) : outcome V :=
  match d !! k with
  | Some v => Ret v
  | None => Raise (KeyError k)
  end.

End Py.
Export Py.

Global Instance scalar_eq_dec : EqDecision scalar.
Proof. solve_decision. Defined.

Global Instance scalar_countable : Countable scalar.
Proof.
  refine (inj_countable'
    (λ v, match v with
          | VNone => inl (inl tt)
          | VBool b => inl (inr b)
          | VInt z => inr (inl z)
          | VStr s => inr (inr (inl s))
          | VUuid s => inr (inr (inr s))
          end)
    (λ x, match x with
          | inl (inl _) => VNone
          | inl (inr b) => VBool b
          | inr (inl z) => VInt z
          | inr (inr (inl s)) => VStr s
          | inr (inr (inr s)) => VUuid s
          end) _).
  by intros [].
Defined.

(** ** The type table *)

(** Modelled from the spec: the [TYPE_*] constants that [types_map]
    mentions are defined in [redash.query_runner], outside this module;
    they are the portable types STRING, BOOLEAN, FLOAT and DATETIME of the
    data model. *)
Inductive column_type :=
| TYPE_STRING
| TYPE_BOOLEAN
| TYPE_FLOAT
| TYPE_DATETIME.

Definition types_map : gmap Z column_type :=
  <[1%Z := TYPE_STRING]> (
  <[2%Z := TYPE_BOOLEAN]> (
  <[3%Z := TYPE_FLOAT]> (
  <[4%Z := TYPE_DATETIME]> (
  <[5%Z := TYPE_FLOAT]> ∅)))).

(** [types_map.get(code, None)]: the portable type of a driver type code.
    Python's [None] (here [None : option column_type]) is the value the
    data model calls UNKNOWN. *)
Definition types_map_get (code : Z) : option column_type :=
  types_map !! code.

(** ** Effects: locals, exceptions and the trace of outside calls *)

(** What leaves the module: the calls on the pymssql driver, in the order
    they are made, and the two logging calls. *)
Record ConnectArgs := {
  arg_server : string;
  arg_user : string;
  arg_password : string;
  arg_database : scalar;
  arg_tds_version : string;
  arg_charset : string
}.

Inductive event :=
| EvConnect (args : ConnectArgs)
| EvCursor
| EvLogDebug (query : string)
| EvExecute (query : string)
| EvFetchall
| EvCursorClose
| EvCancel
| EvClose
| EvLogException (e : exn).

Definition is_connect (ev : event) : bool :=
  match ev with EvConnect _ => true | _ => false end.
Definition is_close (ev : event) : bool :=
  match ev with EvClose => true | _ => false end.

(** A computation of a function whose local variables have type [L]. *)
Definition Py (L A : Type) : Type := L → outcome A * L * list event.

Section Monad.
Context {L : Type}.

Definition ret {A} (a : A) : Py L A := λ l, (Ret a, l, []).

Definition raise {A} (e : exn) : Py L A := λ l, (Raise e, l, []).

Definition bind {A B} (m : Py L A) (k : A → Py L B) : Py L B :=
  λ l, match m l with
       | (Ret a, l1, t1) =>
           match k a l1 with (r, l2, t2) => (r, l2, t1 ++ t2) end
       | (Raise e, l1, t1) => (Raise e, l1, t1)
       end.

(** A value or an exception computed without touching locals. *)
Definition lift {A} (o : outcome A) : Py L A := λ l, (o, l, []).

(** A call that leaves the module: it is recorded, then returns or
    raises as the callee decides. *)
Definition extern {A} (ev : event) (o : outcome A) : Py L A :=
  λ l, (o, l, [ev]).

Definition get_locals : Py L L := λ l, (Ret l, l, []).

Definition set_locals (f : L → L) : Py L unit := λ l, (Ret tt, f l, []).

(** [try: m except <classes>: h]; the handler [h] re-raises what its
    [except] clauses do not name. *)
Definition try_except {A} (m : Py L A) (h : exn → Py L A) : Py L A :=
  λ l, match m l with
       | (Ret a, l1, t1) => (Ret a, l1, t1)
       | (Raise e, l1, t1) =>
           match h e l1 with (r, l2, t2) => (r, l2, t1 ++ t2) end
       end.

(** [try: m finally: f]; an exception raised by [f] replaces the
    outcome of [m]. *)
Definition try_finally {A} (m : Py L A) (f : Py L unit) : Py L A :=
  λ l, match m l with
       | (r, l1, t1) =>
           match f l1 with
           | (Ret _, l2, t2) => (r, l2, t1 ++ t2)
           | (Raise e, l2, t2) => (Raise e, l2, t1 ++ t2)
           end
       end.

(** [for x in xs: body x] *)
Fixpoint for_each {A} (xs : list A) (body : A → Py L unit) : Py L unit :=
  match xs with
  | [] => ret tt
  | x :: xs' => bind (body x) (λ _, for_each xs' body)
  end.
End Monad.

(** A method call: the callee runs on locals of its own, which are
    dropped when it returns or raises. *)
Definition call {L L' A} (m : Py L' A) (fresh : L') : Py L A :=
  λ l, match m fresh with (r, _, t) => (r, l, t) end.

Notation "x <- m ;; k" := (bind m (λ x, k))
  (at level 100, m at next level, right associativity).
Notation "m ;;; k" := (bind m (λ _, k))
  (at level 100, right associativity).

(** How [simpl] and [cbn] run a computation once its locals are known. *)
Arguments bind {L A B} m k l /.
Arguments ret {L A} a l /.
Arguments raise {L A} e l /.
Arguments lift {L A} o l /.
Arguments extern {L A} ev o l /.
Arguments get_locals {L} l /.
Arguments set_locals {L} f l /.
Arguments try_except {L A} m h l /.
Arguments try_finally {L A} m f l /.
Arguments call {L L' A} m fresh l /.

Definition outcome_of {L A} (r : outcome A * L * list event) : outcome A := r.1.1.
Definition locals_of {L A} (r : outcome A * L * list event) : L := r.1.2.
Definition trace_of {L A} (r : outcome A * L * list event) : list event := r.2.

Definition read_local {L A} (var : string) (field : L → option A) : Py L A :=
  λ l, match field l with
       | Some a => (Ret a, l, [])
       | None => (Raise (UnboundLocalError var), l, [])
       end.

Arguments read_local {L A} var field l /.

(** ** Result sets and their JSON text *)

(** Modelled from the spec: a Column Descriptor, [{name, type}], as the
    inherited [fetch_columns] of [redash.query_runner] builds them; the
    runner itself reads [c['name']] only. *)
Record Column := { col_name : string; col_type : option column_type }.

Abbreviation Row := (gmap string scalar).

(** [{'columns': [...], 'rows': [...]}] *)
Record ResultSet := { rs_columns : list Column; rs_rows : list Row }.

(** JSON text is kept as the document it denotes. *)
Inductive JsonText := Json (doc : ResultSet).

(** [MSSQLJSONEncoder.default]: a UUID is written as its string. *)
Definition json_default (o : scalar) : scalar :=
  match o with
  | VUuid s => VStr s
  | _ => o
  end.

(** The text [json.dumps(data, cls=MSSQLJSONEncoder)] writes, when it
    writes one. *)
Definition json_dumps (data : ResultSet) : JsonText :=
  Json {| rs_columns := rs_columns data;
          rs_rows := map (fmap json_default) (rs_rows data) |}.

(** [json.loads(text)]; [json.loads(None)] is a [TypeError]. *)
Definition json_loads (text : option JsonText) : outcome ResultSet :=
  match text with
  | Some (Json doc) => Ret doc
  | None => Raise TypeError
  end.

(** ** Configuration *)

(** The keys of [self.configuration] the runner reads; a key may be
    absent. *)
Record Configuration := {
  cfg_user : option string;
  cfg_password : option string;
  cfg_server : option string;
  cfg_port : option Z;
  cfg_tds_version : option string;
  cfg_charset : option string;
  cfg_db : option string;
  cfg_master_db : option string;
  cfg_datasources_query : option string
}.

(** [self.configuration.get(key, dflt)] *)
Definition cfg_get {A} (field : option A) (dflt : A) : A := default dflt field.

(** [self.configuration[key]] *)
Definition cfg_getitem {A} (key : string) (field : option A) : outcome A :=
  match field with
  | Some a => Ret a
  | None => Raise (KeyError key)
  end.

(** ** The pymssql driver, as the objects the runner holds *)

(** A cursor after [execute] returned. *)
Record Executed := {
  fetchall : outcome (list (list scalar));
  description : option (list (string * Z));
  cursor_close : outcome unit
}.

Record Cursor := { execute : string → outcome Executed }.

Record Connection := {
  cursor : outcome Cursor;
  cancel : outcome unit;
  close : outcome unit
}.

(** ** The query runner *)

(** Locals of [run_query_on_datasource] that are read after the [try]
    statement bound them, or failed to. *)
Record DsLocals := {
  ds_connection : option Connection;
  ds_json_data : option (option JsonText);
  ds_error : option pyobj
}.

Definition ds_unbound : DsLocals :=
  {| ds_connection := None; ds_json_data := None; ds_error := None |}.

Definition set_connection (c : Connection) : Py DsLocals unit :=
  set_locals (λ l, {| ds_connection := Some c;
                      ds_json_data := ds_json_data l;
                      ds_error := ds_error l |}).
Definition set_json_data (j : option JsonText) : Py DsLocals unit :=
  set_locals (λ l, {| ds_connection := ds_connection l;
                      ds_json_data := Some j;
                      ds_error := ds_error l |}).
Definition set_error (e : pyobj) : Py DsLocals unit :=
  set_locals (λ l, {| ds_connection := ds_connection l;
                      ds_json_data := ds_json_data l;
                      ds_error := Some e |}).

Arguments set_connection c l /.
Arguments set_json_data j l /.
Arguments set_error e l /.

(** An entry of the schema dict, [{'name': ..., 'columns': [...]}]. *)
Record TableEntry := { entry_name : scalar; entry_columns : list scalar }.

(** The dict [schema] that [_get_tables] fills in for its caller. *)
Abbreviation Schema := (gmap scalar TableEntry).

(** [schema.values()] *)
Definition dict_values (schema : Schema) : list TableEntry :=
  (map_to_list schema).*2.

(** The column list filed under [key], empty when there is none. *)
Definition columns_in (schema : Schema) (key : scalar) : list scalar :=
  default [] (entry_columns <$> schema !! key).

(** Locals of [run_query] that outlive the statement that binds them. *)
Record RqLocals := {
  rq_error : option pyobj;
  rq_total_rows : option (list Row);
  rq_results : option ResultSet
}.

Definition rq_unbound : RqLocals :=
  {| rq_error := None; rq_total_rows := None; rq_results := None |}.

Definition set_rq_error (e : pyobj) : Py RqLocals unit :=
  set_locals (λ l, {| rq_error := Some e;
                      rq_total_rows := rq_total_rows l;
                      rq_results := rq_results l |}).
Definition set_rq_total_rows (rows : list Row) : Py RqLocals unit :=
  set_locals (λ l, {| rq_error := rq_error l;
                      rq_total_rows := Some rows;
                      rq_results := rq_results l |}).
Definition set_rq_results (r : ResultSet) : Py RqLocals unit :=
  set_locals (λ l, {| rq_error := rq_error l;
                      rq_total_rows := rq_total_rows l;
                      rq_results := Some r |}).

Arguments set_rq_error e l /.
Arguments set_rq_total_rows rows l /.
Arguments set_rq_results r l /.

(** ** A sample deployment

    One server with a master database that lists four targets, used to
    run the model on concrete inputs. *)

Module Sample.

Definition configuration_with (master : string) : Configuration :=
  {| cfg_user := Some "redash"; cfg_password := Some "secret";
     cfg_server := Some "10.0.0.5"; cfg_port := None;
     cfg_tds_version := None; cfg_charset := None;
     cfg_db := Some "Sales"; cfg_master_db := Some master;
     cfg_datasources_query := Some "SELECT name AS datasource FROM targets" |}.

Definition configuration : Configuration := configuration_with "master".

Definition encode (query charset : string) : outcome string := Ret query.

Definition fetch_columns (columns : list (string * option column_type))
    : list Column :=
  map (λ c, {| col_name := c.1; col_type := c.2 |}) columns.

(** Everything the sample servers return can be written as JSON. *)
Definition dumps_error (data : ResultSet) : option exn := None.

(** A connection on which every statement returns [data]. *)
Definition answers (descr : list (string * Z)) (data : list (list scalar))
    : Connection :=
  {| cursor := Ret {| execute := λ _,
                        Ret {| fetchall := Ret data;
                               description := Some descr;
                               cursor_close := Ret tt |} |};
     cancel := Ret tt;
     close := Ret tt |}.

(** A connection on which every statement raises [e]. *)
Definition fails_with (e : exn) : Connection :=
  {| cursor := Ret {| execute := λ _, Raise e |};
     cancel := Ret tt;
     close := Ret tt |}.

Definition tables_data : list (list scalar) :=
  [ [VStr "Sales"; VStr "Orders"; VStr "id"];
    [VStr "dbo2"; VStr "Orders"; VStr "id"];
    [VStr "Sales"; VStr "Orders"; VStr "total"] ].

Definition tables_descr : list (string * Z) :=
  [("table_schema", 1%Z); ("table_name", 1%Z); ("column_name", 1%Z)].

Definition pymssql_connect (args : ConnectArgs) : outcome Connection :=
  match arg_database args with
  | VStr "master" =>
      Ret (answers [("datasource", 1%Z)]
             [[VStr "db0"]; [VStr "db1"]; [VStr "db2"]; [VStr "db3"]])
  | VStr "lonely" => Ret (answers [("datasource", 1%Z)] [[VStr "db1"]])
  | VStr "db0" =>
      Ret (answers [("id", 3%Z); ("name", 1%Z)] [[VInt 1; VStr "a"]])
  | VStr "db1" => Ret (fails_with (OtherException "boom"))
  | VStr "db2" =>
      Ret (answers [("id", 3%Z); ("label", 1%Z)]
             [[VInt 2; VStr "b"]; [VInt 3; VUuid "c"]])
  | VStr "db3" =>
      Ret (fails_with (PymssqlError [OInt 208; OStr "Invalid object name"]))
  | VStr "Sales" => Ret (answers tables_descr tables_data)
  | _ =>
      Raise (PymssqlError
               [OTuple [OInt 20002; OStr "Adaptive Server connection failed"]])
  end.

(** The same server on another day: the metadata of [Sales] is
    unchanged, the rest is not reachable. *)
Definition pymssql_connect_again (args : ConnectArgs)
    : outcome Connection :=
  match arg_database args with
  | VStr "Sales" =>
      Ret {| cursor := cursor (answers tables_descr tables_data);
             cancel := Raise (OtherException "not connected");
             close := Ret tt |}
  | _ => Raise (OtherException "unreachable")
  end.

Definition target (name : string) : Row := py_dict [("datasource", VStr name)].

Definition targets_doc : ResultSet :=
  {| rs_columns := [{| col_name := "datasource"; col_type := Some TYPE_STRING |}];
     rs_rows := [target "db0"; target "db1"; target "db2"; target "db3"] |}.

Definition lonely_doc : ResultSet :=
  {| rs_columns := [{| col_name := "datasource"; col_type := Some TYPE_STRING |}];
     rs_rows := [target "db1"] |}.

Definition db2_columns : list Column :=
  [{| col_name := "id"; col_type := Some TYPE_FLOAT |};
   {| col_name := "label"; col_type := Some TYPE_STRING |}].

Definition db2_doc : ResultSet :=
  {| rs_columns := db2_columns;
     rs_rows := [py_dict [("id", VInt 2); ("label", VStr "b")];
                 py_dict [("id", VInt 3); ("label", VStr "c")]] |}.

(** What [run_query] hands back for the four targets. *)
Definition aggregate : ResultSet :=
  {| rs_columns := db2_columns;
     rs_rows := [py_dict [("id", VInt 1); ("name", VStr "a")];
                 py_dict [("id", VInt 2); ("label", VStr "b")];
                 py_dict [("id", VInt 3); ("label", VStr "c")]] |}.

Definition table_row (namespace table column : string) : Row :=
  py_dict [("table_schema", VStr namespace); ("table_name", VStr table);
           ("column_name", VStr column)].

Definition tables_doc : ResultSet :=
  {| rs_columns :=
       [{| col_name := "table_schema"; col_type := Some TYPE_STRING |};
        {| col_name := "table_name"; col_type := Some TYPE_STRING |};
        {| col_name := "column_name"; col_type := Some TYPE_STRING |}];
     rs_rows := [table_row "Sales" "Orders" "id";
                 table_row "dbo2" "Orders" "id";
                 table_row "Sales" "Orders" "total"] |}.

End Sample.

(** ** Less friendly servers

    Databases on which a statement is interrupted, has no result set,
    fails with a one-string error, or whose connection cannot be
    closed. *)

Module Edge.

Definition executed (descr : option (list (string * Z)))
    (data : list (list scalar)) : Executed :=
  {| fetchall := Ret data; description := descr; cursor_close := Ret tt |}.

Definition cursor_of (ex : outcome Executed) : Cursor :=
  {| execute := λ _, ex |}.

Definition connection_of (ex : outcome Executed) (closing : outcome unit)
    : Connection :=
  {| cursor := Ret (cursor_of ex); cancel := Ret tt; close := closing |}.

Definition pymssql_connect (args : ConnectArgs) : outcome Connection :=
  match arg_database args with
  | VStr "cancelled" => Ret (connection_of (Raise KeyboardInterrupt) (Ret tt))
  | VStr "ddl" =>
      Ret (connection_of (Ret (executed None [[VInt 1]])) (Ret tt))
  | VStr "stuck" =>
      Ret (connection_of (Ret (executed (Some [("id", 3%Z)]) [[VInt 1]]))
             (Raise (OtherException "close failed")))
  | VStr "norows" =>
      Ret (connection_of
             (Raise (PymssqlError [OStr "Statement not executed"])) (Ret tt))
  | VStr "halt" =>
      Ret (connection_of (Ret (executed (Some [("id", 3%Z)]) [[VInt 1]]))
             (Raise KeyboardInterrupt))
  | VStr "photos" =>
      Ret (connection_of
             (Ret (executed (Some [("photo", 1%Z)]) [[VStr "JFIF"]]))
             (Ret tt))
  | VStr "watched" =>
      Ret (Sample.answers [("datasource", 1%Z)]
             [[VStr "db0"]; [VStr "halt"]; [VStr "db2"]])
  | VStr "" => Ret (Sample.answers Sample.tables_descr Sample.tables_data)
  | _ => Sample.pymssql_connect args
  end.

(** An encoder that cannot write the column [photo] (bytes that are not
    UTF-8). *)
Definition dumps_error (data : ResultSet) : option exn :=
  if bool_decide ("photo" ∈ map col_name (rs_columns data))
  then Some (OtherException "UnicodeDecodeError")
  else None.

(** The sample configuration with another value, or none, for [db]. *)
Definition configuration_with_db (db : option string) : Configuration :=
  {| cfg_user := Some "redash"; cfg_password := Some "secret";
     cfg_server := Some "10.0.0.5"; cfg_port := Some 1434%Z;
     cfg_tds_version := None; cfg_charset := None;
     cfg_db := db; cfg_master_db := Some "master";
     cfg_datasources_query := Some "SELECT name AS datasource FROM targets" |}.

Definition db0_descr : list (string * Z) := [("id", 3%Z); ("name", 1%Z)].

Definition db0_data : list (list scalar) := [[VInt 1; VStr "a"]].

Definition db0_doc : ResultSet :=
  {| rs_columns := [{| col_name := "id"; col_type := Some TYPE_FLOAT |};
                    {| col_name := "name"; col_type := Some TYPE_STRING |}];
     rs_rows := [py_dict [("id", VInt 1); ("name", VStr "a")]] |}.

Definition watched_doc : ResultSet :=
  {| rs_columns := [{| col_name := "datasource"; col_type := Some TYPE_STRING |}];
     rs_rows := [Sample.target "db0"; Sample.target "halt";
                 Sample.target "db2"] |}.

(** What [run_query] has gathered before db3 reports its error. *)
Definition three_targets : list Row :=
  [Sample.target "db0"; Sample.target "db1"; Sample.target "db2"].

End Edge.

Section Runner.

(** [pymssql.connect(...)] *)
Variable pymssql_connect : ConnectArgs → outcome Connection.
(** [query.encode(charset)] for a unicode query, the query itself for a
    byte string. *)
Variable encode : string → string → outcome string.
(** [BaseQueryRunner.fetch_columns], inherited from
    [redash.query_runner]. *)
Variable fetch_columns : list (string * option column_type) → list Column.
(** [self.configuration] *)
Variable configuration : Configuration.
(** [json.dumps(data, cls=MSSQLJSONEncoder)] on fetched data can raise: the
    json library on a byte string that is not UTF-8, the parent
    [JSONEncoder] of [redash.utils] on an object it has no rule for.
    [dumps_error data] is that exception, if there is one; when there is
    none the text written is [json_dumps data]. *)
Variable dumps_error : ResultSet → option exn.

(** The message of a [pymssql.Error]: [args[1]], or [args[0][1]] when
    [args] has no second item. *)
Definition error_message {L} (args : list pyobj) : Py L pyobj :=
  try_except
    (lift (tuple_getitem args 1))
    (λ e, match e with
          | IndexError =>
              a0 <- lift (tuple_getitem args 0) ;;
              lift (obj_getitem a0 1)
          | _ => raise e
          end).

(** The arguments of [pymssql.connect], as the first lines of the [try]
    block of [run_query_on_datasource] compute them. *)
Definition connect_args (db : scalar) : ConnectArgs :=
  let server := cfg_get (cfg_server configuration) "" in
  let user := cfg_get (cfg_user configuration) "" in
  let password := cfg_get (cfg_password configuration) "" in
  let port := cfg_get (cfg_port configuration) 1433%Z in
  let tds_version := cfg_get (cfg_tds_version configuration) "4.2" in
  let charset := cfg_get (cfg_charset configuration) "ISO-8859-1" in
  let server :=
    if bool_decide (port ≠ 1433%Z)
    then server +:+ ":" +:+ pretty port
    else server in
  {| arg_server := server; arg_user := user; arg_password := password;
     arg_database := db; arg_tds_version := tds_version;
     arg_charset := charset |}.

Definition run_query_on_datasource (query : string) (user : scalar)
    (db : scalar) : Py DsLocals (option JsonText * pyobj) :=
  (try_finally
    (try_except
      (let args := connect_args db in
       let charset := arg_charset args in
       connection <- extern (EvConnect args) (pymssql_connect args) ;;
       (set_connection connection ;;;
        query <- lift (encode query charset) ;;
        cursor <- extern EvCursor (cursor connection) ;;
        (extern (EvLogDebug query) (Ret tt) ;;;
         executed <- extern (EvExecute query) (execute cursor query) ;;
         data <- extern EvFetchall (fetchall executed) ;;
         (match description executed with
          | Some descr =>
              let columns :=
                fetch_columns
                  (map (λ i, (i.1, types_map_get i.2)) descr) in
              let rows :=
                map (λ row, py_dict (zip (map col_name columns) row))
                    data in
              let data := {| rs_columns := columns; rs_rows := rows |} in
              match dumps_error data with
              | Some e => raise e
              | None =>
                  (set_json_data (Some (json_dumps data)) ;;;
                   set_error ONone)
              end
          | None =>
              (set_error (OStr "No data was returned.") ;;;
               set_json_data None)
          end ;;;
          extern EvCursorClose (cursor_close executed)))))
      (λ e,
         match e with
         | PymssqlError args =>
             error <- error_message args ;;
             (set_error error ;;;
              set_json_data None)
         | KeyboardInterrupt =>
             connection <- read_local "connection" ds_connection ;;
             (extern EvCancel (cancel connection) ;;;
              set_error (OStr "Query cancelled by user.") ;;;
              set_json_data None)
         | _ => raise e
         end))
    (* if connection: (a connection object is true) *)
    (connection <- read_local "connection" ds_connection ;;
     extern EvClose (close connection))) ;;;
  json_data <- read_local "json_data" ds_json_data ;;
  error <- read_local "error" ds_error ;;
  ret (json_data, error).

(** [error is not None] *)
Definition is_not_None (o : pyobj) : bool :=
  match o with ONone => false | _ => true end.

(** *** Schema introspection *)

Definition tables_query : string := "
        SELECT table_schema, table_name, column_name
        FROM INFORMATION_SCHEMA.COLUMNS
        WHERE table_schema NOT IN ('guest','INFORMATION_SCHEMA','sys','db_owner','db_accessadmin'
                                  ,'db_securityadmin','db_ddladmin','db_backupoperator','db_datareader'
                                  ,'db_datawriter','db_denydatareader','db_denydatawriter'
                                  );
        ".

(** The name under which a row of the introspection query is filed
    (the [if]/[else] that opens the loop body of [_get_tables]). *)
Definition table_name_of {L} (row : Row) : Py L scalar :=
  table_schema <- lift (dict_getitem row "table_schema") ;;
  db <- lift (cfg_getitem "db" (cfg_db configuration)) ;;
  if negb (py_eq table_schema (VStr db))
  then
    table_schema <- lift (dict_getitem row "table_schema") ;;
    table_name <- lift (dict_getitem row "table_name") ;;
    ret (VStr (py_str table_schema +:+ "." +:+ py_str table_name))
  else lift (dict_getitem row "table_name").

(** The body of the loop of [_get_tables]; the only local it updates is
    the dict [schema] the caller handed in. *)
Definition add_row (row : Row) : Py Schema unit :=
  table_name <- table_name_of row ;;
  (set_locals (λ schema : Schema,
     match schema !! dict_key table_name with
     | None =>
         <[dict_key table_name :=
             {| entry_name := table_name; entry_columns := [] |}]> schema
     | Some _ => schema
     end) ;;;
   column_name <- lift (dict_getitem row "column_name") ;;
   set_locals (λ schema : Schema,
     alter (λ entry, {| entry_name := entry_name entry;
                        entry_columns := entry_columns entry ++ [column_name] |})
           (dict_key table_name) schema)).

Definition _get_tables : Py Schema (list TableEntry) :=
  r <- call (run_query_on_datasource tables_query VNone
               (VStr (cfg_get (cfg_db configuration) ""))) ds_unbound ;;
  let '(results, error) := r in
  if is_not_None error
  then raise (PyException "Failed getting schema.")
  else
    results <- lift (json_loads results) ;;
    (for_each (rs_rows results) add_row ;;;
     schema <- get_locals ;;
     ret (dict_values schema)).

(** *** Fan-out *)

(** One pass through the body of the [for] loop of [run_query]. *)
Definition query_target (query : string) (user : scalar) (d : Row)
    : Py RqLocals unit :=
  try_except
    (datasource <- lift (dict_getitem d "datasource") ;;
     r <- call (run_query_on_datasource query user datasource) ds_unbound ;;
     let '(results_json, error) := r in
     (set_rq_error error ;;;
      results <- lift (json_loads results_json) ;;
      (set_rq_results results ;;;
       total_rows <- read_local "total_rows" rq_total_rows ;;
       set_rq_total_rows (total_rows ++ rs_rows results))))
    (λ e, if is_Exception e
          then extern (EvLogException e) (Ret tt)
          else raise e).

Definition run_query (query : string) (user : scalar)
    : Py RqLocals (JsonText * pyobj) :=
  r <- call (run_query_on_datasource
               (cfg_get (cfg_datasources_query configuration) "") user
               (VStr (cfg_get (cfg_master_db configuration) "")))
            ds_unbound ;;
  let '(datasources_json, error) := r in
  (set_rq_error error ;;;
   if is_not_None error
   then raise (PyException "Failed retrieving datasources.")
   else
     (set_rq_total_rows [] ;;;
      datasources <- lift (json_loads datasources_json) ;;
      (for_each (rs_rows datasources) (query_target query user) ;;;
       results <- read_local "results" rq_results ;;
       total_rows <- read_local "total_rows" rq_total_rows ;;
       let results := {| rs_columns := rs_columns results;
                         rs_rows := total_rows |} in
       error <- read_local "error" rq_error ;;
       (* [results] and [total_rows] were parsed from JSON text, which
          [json.dumps] writes back *)
       ret (json_dumps results, error)))).

(** *** What a caller observes of a single-target execution *)

(** A call of [run_query_on_datasource]: it starts with every local
    unbound. *)
Definition single_target (query : string) (user : scalar) (db : scalar)
    : outcome (option JsonText * pyobj) * DsLocals * list event :=
  run_query_on_datasource query user db ds_unbound.

(** The discovery call that opens [run_query]. *)
Definition discovery (user : scalar) :=
  single_target (cfg_get (cfg_datasources_query configuration) "") user
                (VStr (cfg_get (cfg_master_db configuration) "")).

(** The metadata call that opens [_get_tables]. *)
Definition introspection :=
  single_target tables_query VNone (VStr (cfg_get (cfg_db configuration) "")).

(** What the [try] block of the fan-out loop yields for the discovery
    row [d] before [json.loads]: [d['datasource']], then the
    single-target execution. *)
Definition target_outcome (query : string) (user : scalar) (d : Row)
    : outcome (option JsonText * pyobj) :=
  match dict_getitem d "datasource" with
  | Ret datasource => outcome_of (single_target query user datasource)
  | Raise e => Raise e
  end.

Definition target_trace (query : string) (user : scalar) (d : Row)
    : list event :=
  match dict_getitem d "datasource" with
  | Ret datasource => trace_of (single_target query user datasource)
  | Raise e => []
  end.

(** The Result Set of a target whose execution produced one. *)
Definition target_result (query : string) (user : scalar) (d : Row)
    : option ResultSet :=
  match target_outcome query user d with
  | Ret (Some (Json doc), _) => Some doc
  | _ => None
  end.

(** The rows a target hands to the aggregate. *)
Definition target_rows (query : string) (user : scalar) (d : Row)
    : list Row :=
  match target_result query user d with
  | Some doc => rs_rows doc
  | None => []
  end.

(** The error value of a target whose execution returned. *)
Definition target_error (query : string) (user : scalar) (d : Row)
    : option pyobj :=
  match target_outcome query user d with
  | Ret (_, error) => Some error
  | Raise _ => None
  end.

(** The target's execution raised an [Exception]. *)
Definition fatally_fails (query : string) (user : scalar) (d : Row) : bool :=
  match target_outcome query user d with
  | Raise e => is_Exception e
  | Ret _ => false
  end.

(** The target's execution raised outside the [Exception] hierarchy
    ([KeyboardInterrupt], [SystemExit]). *)
Definition interrupted (query : string) (user : scalar) (d : Row) : bool :=
  match target_outcome query user d with
  | Raise e => negb (is_Exception e)
  | Ret _ => false
  end.

(** The databases of the connections a trace asks for. *)
Definition connected_databases (t : list event) : list scalar :=
  omap (λ ev, match ev with
              | EvConnect args => Some (arg_database args)
              | _ => None
              end) t.

(** *** What the schema fold observes of an introspection row *)

(** The name [table_name_of] computes; it reads no local. *)
Definition qualified_name (row : Row) : outcome scalar :=
  outcome_of (table_name_of row tt).

(** The dict key and the column name of a row that has both. *)
Definition row_entry (row : Row) : option (scalar * scalar) :=
  match qualified_name row, dict_getitem row "column_name" with
  | Ret table_name, Ret column_name => Some (dict_key table_name, column_name)
  | _, _ => None
  end.

(** The column names of the rows filed under [key], in row order. *)
Definition columns_for (key : scalar) (rows : list Row) : list scalar :=
  omap (λ row, match row_entry row with
               | Some (k, column_name) =>
                   if decide (k = key) then Some column_name else None
               | None => None
               end) rows.

(** The dict [data] that [run_query_on_datasource] hands to [json.dumps]:
    the columns of a description and one row per fetched record. *)
Definition result_set_of (descr : list (string * Z))
    (data : list (list scalar)) : ResultSet :=
  let columns :=
    fetch_columns (map (λ i, (i.1, types_map_get i.2)) descr) in
  {| rs_columns := columns;
     rs_rows := map (λ row, py_dict (zip (map col_name columns) row)) data |}.

(** *** What the fan-out loop leaves in the trace *)

(** What the [except] clause of the loop logs for the discovery row
    [d]. *)
Definition target_log (query : string) (user : scalar) (d : Row)
    : list event :=
  match target_outcome query user d with
  | Ret (Some _, _) => []
  | Ret (None, _) => [EvLogException TypeError]
  | Raise e => if is_Exception e then [EvLogException e] else []
  end.

(** The discovery rows the loop reaches: all of them, or those up to the
    first whose execution raises outside the [Exception] hierarchy. *)
Fixpoint attempted (query : string) (user : scalar) (ds : list Row)
    : list Row :=
  match ds with
  | [] => []
  | d :: ds' =>
      d :: (if interrupted query user d then [] else attempted query user ds')
  end.

(** The connections of a trace that [pymssql.connect] handed over, and
    those that were closed. *)
Definition opened_connections (t : list event) : nat :=
  length (List.filter
            (λ ev, match ev with
                   | EvConnect args => returned (pymssql_connect args)
                   | _ => false
                   end) t).

Definition closed_connections (t : list event) : nat :=
  length (List.filter is_close t).

(** ** Properties *)

Arguments error_message : simpl never.

Lemma error_message_pure {L} (args : list pyobj) (l : L) :
  ∃ o, error_message args l = (o, l, []).
Proof.
  unfold error_message, try_except, bind, lift, raise.
  destruct (tuple_getitem args 1) as [x|e]; [eauto|].
  destruct e; eauto.
  destruct (tuple_getitem args 0) as [a0|e0]; [|eauto].
  destruct (obj_getitem a0 1); eauto.
Qed.


Lemma connect_failure q u db e :
  pymssql_connect (connect_args db) = Raise e →
  let r := single_target q u db in
  outcome_of r = Raise (UnboundLocalError "connection") ∧
  trace_of r = [EvConnect (connect_args db)].
Proof.
  intros H. unfold single_target, run_query_on_datasource.
  cbn. rewrite H.
  destruct e; try (cbn; done).
  cbn. 
  destruct (error_message_pure (L:=DsLocals) args ds_unbound) as [o ->].
  destruct o; cbn; done.
Qed.


Ltac py_cases :=
  repeat (cbn;
    match goal with
    | |- context [match dumps_error ?d with _ => _ end] =>
        destruct (dumps_error d)
    | |- context [error_message ?args ?l] =>
        let o := fresh "o" in
        destruct (error_message_pure args l) as [o ->]
    | |- context [match ?x with Ret _ => _ | Raise _ => _ end] =>
        destruct x eqn:?
    | |- context [match ?e with PymssqlError _ => _ | _ => _ end] =>
        destruct e
    | |- context [match description ?x with _ => _ end] =>
        destruct (description x)
    end).

Lemma single_target_shape q u db :
  let r := single_target q u db in
  connected_databases (trace_of r) = [db] ∧
  match pymssql_connect (connect_args db) with
  | Ret _ => last (trace_of r) = Some EvClose
             ∧ length (List.filter is_close (trace_of r)) = 1
  | Raise _ => outcome_of r = Raise (UnboundLocalError "connection")
               ∧ trace_of r = [EvConnect (connect_args db)]
  end.
Proof.
  unfold single_target, run_query_on_datasource.
  py_cases; cbn; auto.
Qed.



(** *** The type table *)

(** C5. The type mapper is a total function of the integer type code:
    1 is STRING, 2 is BOOLEAN, 3 and 5 are FLOAT, 4 is DATETIME, and every
    other code yields the default [None] of [types_map.get], the UNKNOWN
    of the data model; no code raises. *)
Theorem types_map_get_total (code : Z) :
  types_map_get code =
    if decide (code = 1%Z) then Some TYPE_STRING
    else if decide (code = 2%Z) then Some TYPE_BOOLEAN
    else if decide (code = 3%Z) then Some TYPE_FLOAT
    else if decide (code = 4%Z) then Some TYPE_DATETIME
    else if decide (code = 5%Z) then Some TYPE_FLOAT
    else None.
Proof.
  unfold types_map_get, types_map.
  repeat (rewrite lookup_insert; case_decide; subst;
          [by repeat (case_decide; try done)|]).
  rewrite lookup_empty. by repeat (case_decide; try congruence).
Qed.

(** *** The single-target executor *)

(** C6. Whatever the driver does, a connection that [pymssql.connect]
    handed over is closed exactly once and [close] is the last driver
    call before [run_query_on_datasource] returns or raises; when
    [pymssql.connect] raised there is no connection and nothing is
    closed. One connection is asked for in either case. *)
Theorem connection_always_released q u db :
  let r := single_target q u db in
  length (List.filter is_connect (trace_of r)) = 1
  ∧ match pymssql_connect (connect_args db) with
    | Ret _ =>
        last (trace_of r) = Some EvClose
        ∧ length (List.filter is_close (trace_of r)) = 1
    | Raise _ => List.filter is_close (trace_of r) = []
    end.
Proof.
  unfold single_target, run_query_on_datasource.
  py_cases; cbn; auto.
Qed.

(** The [except pymssql.Error] clause does find the message of a
    connection error, at [args[0][1]]. *)
Lemma error_message_of_connection_error {L} code msg (l : L) :
  error_message [OTuple [code; msg]] l = (Ret msg, l, []).
Proof. reflexivity. Qed.

(** X9. A query error is reported, not raised: with the connection open,
    a [pymssql.Error] of [execute] comes back as [(None, args[1])]. *)
Lemma query_error_is_reported q u db connection q' cur args msg :
  pymssql_connect (connect_args db) = Ret connection →
  encode q (arg_charset (connect_args db)) = Ret q' →
  cursor connection = Ret cur →
  execute cur q' = Raise (PymssqlError args) →
  tuple_getitem args 1 = Ret msg →
  close connection = Ret tt →
  outcome_of (single_target q u db) = Ret (None, msg).
Proof.
  intros Hc He Hcur Hex Hmsg Hcl.
  unfold single_target, run_query_on_datasource. cbn.
  rewrite Hc. cbn. cbn in He. rewrite He. cbn. rewrite Hcur. cbn.
  rewrite Hex. cbn. unfold error_message. cbn. rewrite Hmsg. cbn.
  by rewrite Hcl.
Qed.

(** C7, as the code has it.  When [pymssql.connect] raises a
    [pymssql.Error], the local [connection] was never bound: the
    [finally] clause reads it and raises [UnboundLocalError], which
    replaces the [(None, message)] the [except] clause had prepared. *)
Theorem connection_error_escapes q u db args :
  pymssql_connect (connect_args db) = Raise (PymssqlError args) →
  outcome_of (single_target q u db) = Raise (UnboundLocalError "connection").
Proof. intros H. by destruct (connect_failure q u db _ H). Qed.

Lemma query_target_run q u d l tr :
  rq_total_rows l = Some tr →
  query_target q u d l =
    match target_outcome q u d with
    | Ret (Some (Json doc), err) =>
        (Ret tt,
         {| rq_error := Some err;
            rq_total_rows := Some (tr ++ rs_rows doc);
            rq_results := Some doc |},
         target_trace q u d)
    | Ret (None, err) =>
        (Ret tt,
         {| rq_error := Some err;
            rq_total_rows := rq_total_rows l;
            rq_results := rq_results l |},
         target_trace q u d ++ [EvLogException TypeError])
    | Raise e =>
        if is_Exception e
        then (Ret tt, l, target_trace q u d ++ [EvLogException e])
        else (Raise e, l, target_trace q u d)
    end.
Proof.
  intros Htr. unfold query_target, target_outcome, target_trace, single_target.
  destruct (dict_getitem d "datasource") as [ds|e]; cbn.
  - destruct (run_query_on_datasource q u ds ds_unbound) as [[o l'] t].
    destruct o as [[[[doc]|] err]|e]; cbn.
    + rewrite Htr. cbn. by rewrite !app_nil_r.
    + by rewrite app_nil_r.
    + destruct (is_Exception e); cbn; [done|by rewrite app_nil_r].
  - destruct (is_Exception e); done.
Qed.

Lemma last_omap_cons {A B} (f : A → option B) x l :
  last (omap f (x :: l)) =
    match last (omap f l) with
    | Some y => Some y
    | None => f x
    end.
Proof.
  cbn. destruct (f x) as [y|]; cbn.
  - rewrite last_cons. by destruct (last (omap f l)).
  - by destruct (last (omap f l)).
Qed.

Lemma last_omap_split {A B} (f : A → option B) l y :
  last (omap f l) = Some y ↔
  ∃ pre x post, l = pre ++ x :: post ∧ f x = Some y ∧ Forall (λ z, f z = None) post.
Proof.
  split.
  - induction l as [|x l IH]; [done|].
    rewrite last_omap_cons.
    destruct (last (omap f l)) as [y'|] eqn:Hl.
    + intros [= ->]. destruct IH as (pre & x' & post & -> & ? & ?); [done|].
      by exists (x :: pre), x', post.
    + intros Hx. exists [], x, l. repeat split; [done|].
      clear -Hl. induction l as [|z l IH]; [constructor|].
      rewrite last_omap_cons in Hl.
      destruct (last (omap f l)); [done|]. constructor; auto.
  - intros (pre & x & post & -> & Hx & Hpost).
    induction pre as [|p pre IH]; cbn [app].
    + rewrite last_omap_cons.
      assert (last (omap f post) = None) as ->; [|done].
      induction Hpost as [|z post Hz _ IH]; [done|].
      by rewrite last_omap_cons, IH.
    + by rewrite last_omap_cons, IH.
Qed.


Lemma fan_out_run q u ds : ∀ l tr,
  rq_total_rows l = Some tr →
  Forall (λ d, interrupted q u d = false) ds →
  let r := for_each ds (query_target q u) l in
  outcome_of r = Ret tt ∧
  rq_total_rows (locals_of r) = Some (tr ++ concat (map (target_rows q u) ds)) ∧
  rq_results (locals_of r) =
    match last (omap (target_result q u) ds) with
    | Some doc => Some doc
    | None => rq_results l
    end ∧
  rq_error (locals_of r) =
    match last (omap (target_error q u) ds) with
    | Some e => Some e
    | None => rq_error l
    end.
Proof.
  induction ds as [|d ds IH]; intros l tr Htr Hint.
  - cbn. by rewrite Htr, app_nil_r.
  - inversion_clear Hint as [|? ? Hd Hds].
    cbn [for_each]. unfold bind. rewrite (query_target_run _ _ _ _ _ Htr).
    rewrite !last_omap_cons. cbn [map concat].
    pose proof (eq_refl (target_result q u d)) as Hres.
    pose proof (eq_refl (target_error q u d)) as Herr.
    pose proof (eq_refl (target_rows q u d)) as Hrows.
    unfold target_rows in Hrows at 1. unfold target_result in Hres at 1.
    unfold target_result in Hrows at 1.
    unfold target_error in Herr at 1. unfold interrupted in Hd.
    destruct (target_outcome q u d) as [[[[doc]|] err]|e];
      rewrite <- Hres, <- Herr, <- Hrows; clear Hres Herr Hrows.
    + match goal with |- context [for_each ds _ ?l1] =>
        destruct (IH l1 (tr ++ rs_rows doc) eq_refl Hds) as (H1 & H2 & H3 & H4);
        revert H1 H2 H3 H4;
        destruct (for_each ds (query_target q u) l1) as [[o l2] t2]
      end.
      cbn. intros -> -> -> ->. rewrite <- app_assoc.
      repeat split.
      * by destruct (last (omap _ ds)).
      * by destruct (last (omap (target_error q u) ds)).
    + match goal with |- context [for_each ds _ ?l1] =>
        destruct (IH l1 tr Htr Hds) as (H1 & H2 & H3 & H4);
        revert H1 H2 H3 H4;
        destruct (for_each ds (query_target q u) l1) as [[o l2] t2]
      end.
      cbn. intros -> -> -> ->.
      repeat split.
      * by destruct (last (omap _ ds)).
      * by destruct (last (omap (target_error q u) ds)).
    + apply negb_false_iff in Hd. rewrite Hd.
      destruct (IH l tr Htr Hds) as (H1 & H2 & H3 & H4).
      revert H1 H2 H3 H4.
      destruct (for_each ds (query_target q u) l) as [[o l2] t2].
      cbn. intros -> -> -> ->.
      repeat split.
      * by destruct (last (omap _ ds)).
      * by destruct (last (omap (target_error q u) ds)).
Qed.


Lemma query_target_continues q u d l tr :
  rq_total_rows l = Some tr →
  interrupted q u d = false →
  ∃ l1 tr1 t,
    query_target q u d l = (Ret tt, l1, t) ∧ rq_total_rows l1 = Some tr1.
Proof.
  intros Htr Hd. rewrite (query_target_run _ _ _ _ _ Htr).
  unfold interrupted in Hd.
  destruct (target_outcome q u d) as [[[[doc]|] err]|e]; [by eauto..|].
  apply negb_false_iff in Hd. rewrite Hd. eauto.
Qed.

Lemma fan_out_interrupted q u ds : ∀ l tr,
  rq_total_rows l = Some tr →
  Exists (λ d, interrupted q u d = true) ds →
  ∃ e, outcome_of (for_each ds (query_target q u) l) = Raise e
       ∧ is_Exception e = false.
Proof.
  induction ds as [|d ds IH]; intros l tr Htr Hex; [by inversion Hex|].
  cbn [for_each]. unfold bind.
  destruct (interrupted q u d) eqn:Hd.
  - rewrite (query_target_run _ _ _ _ _ Htr).
    unfold interrupted in Hd.
    destruct (target_outcome q u d) as [?|e]; [done|].
    apply negb_true_iff in Hd. rewrite Hd. by exists e.
  - destruct (query_target_continues _ _ _ _ _ Htr Hd)
      as (l1 & tr1 & t & -> & Htr1).
    inversion_clear Hex as [? ? Hd'|? ? Hex']; [congruence|].
    destruct (IH l1 tr1 Htr1 Hex') as (e & He & Hne).
    revert He. destruct (for_each ds (query_target q u) l1) as [[o l2] t2].
    cbn. intros ->. by exists e.
Qed.

Lemma fan_out_logged q u ds d e : ∀ l tr,
  rq_total_rows l = Some tr →
  Forall (λ d, interrupted q u d = false) ds →
  d ∈ ds →
  target_outcome q u d = Raise e →
  is_Exception e = true →
  EvLogException e ∈ trace_of (for_each ds (query_target q u) l).
Proof.
  induction ds as [|d0 ds IH]; intros l tr Htr Hint Hin Hout He;
    [by apply elem_of_nil in Hin|].
  inversion_clear Hint as [|? ? Hd0 Hds].
  cbn [for_each]. unfold bind.
  apply elem_of_cons in Hin as [<-|Hin].
  - rewrite (query_target_run _ _ _ _ _ Htr), Hout, He.
    destruct (for_each ds (query_target q u) l) as [[o l2] t2]. cbn.
    rewrite !elem_of_app, list_elem_of_singleton. auto.
  - destruct (query_target_continues _ _ _ _ _ Htr Hd0)
      as (l1 & tr1 & t & -> & Htr1).
    specialize (IH l1 tr1 Htr1 Hds Hin Hout He).
    revert IH. destruct (for_each ds (query_target q u) l1) as [[o l2] t2].
    cbn. rewrite elem_of_app. auto.
Qed.

Arguments run_query_on_datasource : simpl never.
Arguments for_each : simpl never.
Arguments query_target : simpl never.

(** The locals of [run_query] when the fan-out loop is entered. *)
Lemma run_query_enters_loop q u doc :
  outcome_of (discovery u) = Ret (Some (Json doc), ONone) →
  run_query q u rq_unbound =
    let r := for_each (rs_rows doc) (query_target q u)
               {| rq_error := Some ONone; rq_total_rows := Some [];
                  rq_results := None |} in
    match outcome_of r with
    | Ret _ =>
        match rq_results (locals_of r), rq_total_rows (locals_of r),
              rq_error (locals_of r) with
        | None, _, _ =>
            (Raise (UnboundLocalError "results"), locals_of r,
             trace_of (discovery u) ++ trace_of r)
        | Some results, None, _ =>
            (Raise (UnboundLocalError "total_rows"), locals_of r,
             trace_of (discovery u) ++ trace_of r)
        | Some results, Some total_rows, None =>
            (Raise (UnboundLocalError "error"), locals_of r,
             trace_of (discovery u) ++ trace_of r)
        | Some results, Some total_rows, Some error =>
            (Ret (json_dumps {| rs_columns := rs_columns results;
                                rs_rows := total_rows |}, error),
             locals_of r, trace_of (discovery u) ++ trace_of r)
        end
    | Raise e => (Raise e, locals_of r, trace_of (discovery u) ++ trace_of r)
    end.
Proof.
  unfold run_query, discovery, single_target. cbn.
  destruct (run_query_on_datasource _ u _ ds_unbound) as [[o l] t].
  cbn. intros ->. cbn.
  destruct (for_each (rs_rows doc) (query_target q u) _) as [[o l1] t1].
  cbn. destruct o as [[]|e]; cbn; [|done].
  destruct l1 as [[err|] [tr|] [res|]]; cbn; by rewrite ?app_nil_r.
Qed.


Lemma run_query_completes q u doc :
  outcome_of (discovery u) = Ret (Some (Json doc), ONone) →
  Forall (λ d, interrupted q u d = false) (rs_rows doc) →
  outcome_of (run_query q u rq_unbound) =
    match last (omap (target_result q u) (rs_rows doc)) with
    | Some last_doc =>
        Ret (json_dumps
               {| rs_columns := rs_columns last_doc;
                  rs_rows := concat (map (target_rows q u) (rs_rows doc)) |},
             default ONone (last (omap (target_error q u) (rs_rows doc))))
    | None => Raise (UnboundLocalError "results")
    end.
Proof.
  intros Hdisc Hint. rewrite (run_query_enters_loop _ _ _ Hdisc). cbv zeta.
  match goal with |- context [for_each _ _ ?l0] =>
    destruct (fan_out_run q u (rs_rows doc) l0 [] eq_refl Hint)
      as (H1 & H2 & H3 & H4)
  end.
  rewrite H1, H2, H3, H4. cbn.
  destruct (last (omap (target_result q u) (rs_rows doc))); [|done].
  by destruct (last (omap (target_error q u) (rs_rows doc))).
Qed.

Lemma run_query_interrupted q u doc :
  outcome_of (discovery u) = Ret (Some (Json doc), ONone) →
  Exists (λ d, interrupted q u d = true) (rs_rows doc) →
  ∃ e, outcome_of (run_query q u rq_unbound) = Raise e
       ∧ is_Exception e = false.
Proof.
  intros Hdisc Hex. rewrite (run_query_enters_loop _ _ _ Hdisc). cbv zeta.
  match goal with |- context [for_each _ _ ?l0] =>
    destruct (fan_out_interrupted q u (rs_rows doc) l0 [] eq_refl Hex)
      as (e & He & Hne)
  end.
  rewrite He. by exists e.
Qed.

Lemma run_query_returned_inv q u doc res :
  outcome_of (discovery u) = Ret (Some (Json doc), ONone) →
  outcome_of (run_query q u rq_unbound) = Ret res →
  Forall (λ d, interrupted q u d = false) (rs_rows doc).
Proof.
  intros Hdisc Hret.
  destruct (decide (Exists (λ d, interrupted q u d = true) (rs_rows doc)))
    as [Hex|Hnex].
  - destruct (run_query_interrupted q u doc Hdisc Hex) as (e & He & _).
    congruence.
  - apply not_Exists_Forall in Hnex; [|apply _].
    eapply Forall_impl; [exact Hnex|].
    intros d Hd. cbn in Hd. by apply not_true_is_false.
Qed.

Lemma fatal_target_no_rows q u d :
  fatally_fails q u d = true →
  target_rows q u d = [] ∧ target_result q u d = None
  ∧ target_error q u d = None.
Proof.
  unfold fatally_fails, target_rows, target_result, target_error.
  by destruct (target_outcome q u d).
Qed.

Lemma raised_target_no_rows q u d e :
  target_outcome q u d = Raise e →
  target_rows q u d = [] ∧ target_result q u d = None
  ∧ target_error q u d = None.
Proof.
  unfold target_rows, target_result, target_error. by intros ->.
Qed.

Lemma survivors_rows q u ds :
  concat (map (target_rows q u)
              (filter (λ d, fatally_fails q u d = false) ds)) =
  concat (map (target_rows q u) ds).
Proof.
  induction ds as [|d ds IH]; [done|].
  rewrite filter_cons. destruct (decide (fatally_fails q u d = false)) as [|Hf].
  - cbn. by rewrite IH.
  - apply not_false_is_true in Hf.
    destruct (fatal_target_no_rows _ _ _ Hf) as (Hr & _).
    cbn. by rewrite Hr, IH.
Qed.

Lemma length_concat_map {A B} (f : A → list B) (l : list A) :
  length (concat (map f l)) = sum_list_with (λ x, length (f x)) l.
Proof.
  induction l as [|x l IH]; [done|]. cbn. by rewrite length_app, IH.
Qed.

Lemma last_omap_is_Some {A B} (f : A → option B) (l : list A) x :
  x ∈ l → is_Some (f x) → is_Some (last (omap f l)).
Proof.
  induction l as [|z l IH]; intros Hin Hx; [by apply elem_of_nil in Hin|].
  rewrite last_omap_cons.
  apply elem_of_cons in Hin as [->|Hin].
  - by destruct (last (omap f l)).
  - destruct (IH Hin Hx) as [y ->]. by eexists.
Qed.


(** *** The fan-out loop *)

(** C1. Failure isolation.  Let the discovery rows be [pre ++ T :: post],
    let the execution of [T] raise an [Exception] and let a later target
    [T'] produce a Result Set.  Then [run_query] returns (the failure of
    [T] does not propagate); its rows are the rows of the other targets,
    in order, so [T] contributes none; the exception of [T] is logged; and
    the error it returns is the error value of the last of the other
    targets whose execution returned, never the failure of [T]. *)
Theorem fan_out_isolates_fatal_target q u doc pre T post e T' :
  outcome_of (discovery u) = Ret (Some (Json doc), ONone) →
  rs_rows doc = pre ++ T :: post →
  target_outcome q u T = Raise e →
  is_Exception e = true →
  T' ∈ post →
  is_Some (target_result q u T') →
  Forall (λ d, interrupted q u d = false) (pre ++ post) →
  ∃ rs err,
    outcome_of (run_query q u rq_unbound) = Ret (Json rs, err)
    ∧ rs_rows rs =
        map (fmap json_default) (concat (map (target_rows q u) (pre ++ post)))
    ∧ last (omap (target_error q u) (pre ++ post)) = Some err
    ∧ EvLogException e ∈ trace_of (run_query q u rq_unbound).
Proof.
  intros Hdisc Hds HT He HT' Hres Hint.
  destruct (raised_target_no_rows _ _ _ _ HT) as (Hrows & HresT & HerrT).
  assert (Forall (λ d, interrupted q u d = false) (rs_rows doc)) as Hall.
  { rewrite Hds. apply Forall_app in Hint as [Hpre Hpost].
    apply Forall_app. split; [done|]. constructor; [|done].
    unfold interrupted. by rewrite HT, He. }
  assert (T' ∈ pre ++ post) as Hin' by (apply elem_of_app; auto).
  assert (omap (target_result q u) (rs_rows doc) =
          omap (target_result q u) (pre ++ post)) as Eres.
  { rewrite Hds, !omap_app. cbn. by rewrite HresT. }
  assert (omap (target_error q u) (rs_rows doc) =
          omap (target_error q u) (pre ++ post)) as Eerr.
  { rewrite Hds, !omap_app. cbn. by rewrite HerrT. }
  assert (concat (map (target_rows q u) (rs_rows doc)) =
          concat (map (target_rows q u) (pre ++ post))) as Erows.
  { rewrite Hds, !map_app, !concat_app. cbn. by rewrite Hrows. }
  destruct (last_omap_is_Some (target_result q u) _ _ Hin' Hres)
    as [last_doc Hlast].
  assert (is_Some (target_error q u T')) as Herr'.
  { destruct Hres as [doc' Hdoc']. revert Hdoc'.
    unfold target_result, target_error.
    destruct (target_outcome q u T') as [[? ?]|]; [by eexists|done]. }
  destruct (last_omap_is_Some (target_error q u) _ _ Hin' Herr')
    as [err Herr].
  pose proof (run_query_completes q u doc Hdisc Hall) as Hrun.
  rewrite Eres, Eerr, Erows, Hlast, Herr in Hrun.
  eexists _, err. split; [exact Hrun|]. split; [done|]. split; [done|].
  rewrite (run_query_enters_loop _ _ _ Hdisc). cbv zeta.
  match goal with |- context [for_each _ _ ?l0] =>
    assert (EvLogException e ∈ trace_of (for_each (rs_rows doc) (query_target q u) l0))
      as Hlog
  end.
  { eapply fan_out_logged; [reflexivity|exact Hall| |exact HT|exact He].
    rewrite Hds. apply elem_of_app. right. apply elem_of_cons. auto. }
  match goal with |- context [for_each _ _ ?l0] =>
    destruct (for_each (rs_rows doc) (query_target q u) l0) as [[o l1] t1]
  end.
  cbn in Hlog |- *.
  assert (EvLogException e ∈ trace_of (discovery u) ++ t1) as Hfin
    by (apply elem_of_app; auto).
  destruct o; [|exact Hfin].
  by destruct (rq_results l1), (rq_total_rows l1), (rq_error l1).
Qed.

(** Whenever [run_query] returns an aggregated result, its rows are the
    rows of the targets whose execution did not fatally fail,
    concatenated in discovery order (each written as [json.dumps] writes
    it). *)
Lemma run_query_rows_when_returned q u doc rs err :
  outcome_of (discovery u) = Ret (Some (Json doc), ONone) →
  outcome_of (run_query q u rq_unbound) = Ret (Json rs, err) →
  let survivors := filter (λ d, fatally_fails q u d = false) (rs_rows doc) in
  length (rs_rows rs) =
    sum_list_with (λ d, length (target_rows q u d)) survivors
  ∧ rs_rows rs =
      map (fmap json_default) (concat (map (target_rows q u) survivors)).
Proof.
  intros Hdisc Hret survivors.
  pose proof (run_query_returned_inv _ _ _ _ Hdisc Hret) as Hint.
  rewrite (run_query_completes _ _ _ Hdisc Hint) in Hret.
  destruct (last (omap (target_result q u) (rs_rows doc))); [|done].
  injection Hret as <- _. cbn [rs_rows].
  unfold survivors. rewrite survivors_rows. split; [|done].
  rewrite length_map, length_concat_map.
  rewrite <- (length_concat_map (target_rows q u)
                (filter (λ d, fatally_fails q u d = false) (rs_rows doc))).
  by rewrite survivors_rows, length_concat_map.
Qed.

(** C2, as amended.  A non-empty target list is not enough for an
    aggregated result: one target has to produce a Result Set.  When the
    discovery query lists a target [T] whose execution produces a Result
    Set, and no target raises outside the [Exception] hierarchy,
    [run_query] returns an aggregated result; its rows are the rows of
    the targets whose execution did not fatally fail, concatenated in
    discovery order (each written as [json.dumps] writes it), and so its
    row count is the sum of their row counts. *)
Theorem run_query_row_count q u doc T :
  outcome_of (discovery u) = Ret (Some (Json doc), ONone) →
  T ∈ rs_rows doc →
  is_Some (target_result q u T) →
  Forall (λ d, interrupted q u d = false) (rs_rows doc) →
  let survivors := filter (λ d, fatally_fails q u d = false) (rs_rows doc) in
  ∃ rs err,
    outcome_of (run_query q u rq_unbound) = Ret (Json rs, err)
    ∧ length (rs_rows rs) =
        sum_list_with (λ d, length (target_rows q u d)) survivors
    ∧ rs_rows rs =
        map (fmap json_default) (concat (map (target_rows q u) survivors)).
Proof.
  intros Hdisc HT Hres Hint survivors.
  pose proof (run_query_completes q u doc Hdisc Hint) as Hrun.
  destruct (last_omap_is_Some (target_result q u) _ _ HT Hres)
    as [last_doc Hlast].
  rewrite Hlast in Hrun.
  eexists _, _. split; [exact Hrun|]. cbn [rs_rows].
  unfold survivors. rewrite survivors_rows. split; [|done].
  rewrite length_map, length_concat_map.
  rewrite <- (length_concat_map (target_rows q u)
                (filter (λ d, fatally_fails q u d = false) (rs_rows doc))).
  by rewrite survivors_rows, length_concat_map.
Qed.

(** C3. Discovery failure.  If the discovery call does not hand back a
    Result Set with a [None] error (it reports an error string, or
    raises), [run_query] raises; when an error value was reported the
    exception is [Exception("Failed retrieving datasources.")]; and the
    only driver calls made are those of the discovery call itself, whose
    single connection is to the master database: no target is queried. *)
Theorem discovery_failure_is_fatal q u :
  (∀ doc, outcome_of (discovery u) ≠ Ret (Some (Json doc), ONone)) →
  ∃ e,
    outcome_of (run_query q u rq_unbound) = Raise e
    ∧ (∀ j err, outcome_of (discovery u) = Ret (j, err) → err ≠ ONone →
         e = PyException "Failed retrieving datasources.")
    ∧ trace_of (run_query q u rq_unbound) = trace_of (discovery u)
    ∧ connected_databases (trace_of (run_query q u rq_unbound)) =
        [VStr (cfg_get (cfg_master_db configuration) "")].
Proof.
  intros Hfail.
  pose proof (single_target_shape
                (cfg_get (cfg_datasources_query configuration) "") u
                (VStr (cfg_get (cfg_master_db configuration) ""))) as [Hdb _].
  fold (discovery u) in Hdb.
  revert Hfail Hdb. unfold run_query, discovery, single_target. cbn.
  destruct (run_query_on_datasource _ u _ ds_unbound) as [[o l] t]. cbn.
  intros Hfail Hdb.
  destruct o as [[j err]|e]; cbn.
  - destruct err; cbn.
    + destruct j as [[doc]|]; [by destruct (Hfail doc)|]. cbn.
      exists TypeError. rewrite !app_nil_r. repeat split; [|done].
      intros ? ? [= _ <-]. done.
    + eexists. rewrite !app_nil_r. repeat split; done.
    + eexists. rewrite !app_nil_r. repeat split; done.
    + eexists. rewrite !app_nil_r. repeat split; done.
  - exists e. repeat split; [|done]. intros ? ? [=].
Qed.

(** C4. Last write wins.  When [run_query] returns an aggregated result,
    its [columns] are the columns of the Result Set of the last target,
    in discovery order, whose execution produced a Result Set. *)
Theorem last_write_wins_schema q u doc rs err :
  outcome_of (discovery u) = Ret (Some (Json doc), ONone) →
  outcome_of (run_query q u rq_unbound) = Ret (Json rs, err) →
  ∃ pre d post last_doc,
    rs_rows doc = pre ++ d :: post
    ∧ target_result q u d = Some last_doc
    ∧ Forall (λ d', target_result q u d' = None) post
    ∧ rs_columns rs = rs_columns last_doc.
Proof.
  intros Hdisc Hret.
  pose proof (run_query_returned_inv _ _ _ _ Hdisc Hret) as Hint.
  rewrite (run_query_completes _ _ _ Hdisc Hint) in Hret.
  destruct (last (omap (target_result q u) (rs_rows doc)))
    as [last_doc|] eqn:Hlast; [|done].
  apply last_omap_split in Hlast as (pre & d & post & Hds & Hd & Hpost).
  injection Hret as <- _.
  by exists pre, d, post, last_doc.
Qed.

(** C10. No target produced a Result Set.  If the discovery query
    succeeds and no discovery row leads to a Result Set (there is no row,
    or every target fails inside the loop), [run_query] does not return:
    it raises, and unless an interrupt cut the loop short the exception
    is the [UnboundLocalError] of the local [results]. *)
Theorem run_query_without_result_raises q u doc :
  outcome_of (discovery u) = Ret (Some (Json doc), ONone) →
  Forall (λ d, target_result q u d = None) (rs_rows doc) →
  ∃ e,
    outcome_of (run_query q u rq_unbound) = Raise e
    ∧ (Forall (λ d, interrupted q u d = false) (rs_rows doc) →
       e = UnboundLocalError "results").
Proof.
  intros Hdisc Hnone.
  assert (last (omap (target_result q u) (rs_rows doc)) = None) as Hlast.
  { destruct (last (omap (target_result q u) (rs_rows doc))) as [y|] eqn:E;
      [|done].
    apply last_omap_split in E as (pre & d & post & Hds & Hd & _).
    rewrite Hds in Hnone. apply Forall_app in Hnone as [_ Hnone].
    inversion_clear Hnone. congruence. }
  destruct (decide (Exists (λ d, interrupted q u d = true) (rs_rows doc)))
    as [Hex|Hnex].
  - destruct (run_query_interrupted q u doc Hdisc Hex) as (e & He & _).
    exists e. split; [done|]. intros Hall.
    apply Exists_exists in Hex as (d & Hin & Hd).
    rewrite Forall_forall in Hall. specialize (Hall d Hin). congruence.
  - apply not_Exists_Forall in Hnex; [|apply _].
    assert (Forall (λ d, interrupted q u d = false) (rs_rows doc)) as Hall.
    { eapply Forall_impl; [exact Hnex|].
      intros d Hd. cbn in Hd. by apply not_true_is_false. }
    pose proof (run_query_completes q u doc Hdisc Hall) as Hrun.
    rewrite Hlast in Hrun. eauto.
Qed.


(** *** The schema fold *)

Lemma table_name_of_run {L} (row : Row) (l : L) :
  table_name_of row l = (qualified_name row, l, []).
Proof.
  unfold qualified_name, table_name_of. cbn.
  destruct (dict_getitem row "table_schema") as [ns|]; cbn; [|done].
  destruct (cfg_getitem "db" (cfg_db configuration)) as [db|]; cbn; [|done].
  destruct (negb (py_eq ns (VStr db))); cbn; [|done].
  by destruct (dict_getitem row "table_name").
Qed.

Lemma for_each_cons {L A} (x : A) (xs : list A) (body : A → Py L unit) l :
  for_each (x :: xs) body l =
    match body x l with
    | (Ret _, l1, t1) =>
        match for_each xs body l1 with (r, l2, t2) => (r, l2, t1 ++ t2) end
    | (Raise e, l1, t1) => (Raise e, l1, t1)
    end.
Proof. reflexivity. Qed.

Lemma add_row_run (row : Row) (schema : Schema) table_name column_name :
  qualified_name row = Ret table_name →
  dict_getitem row "column_name" = Ret column_name →
  add_row row schema =
    (Ret tt,
     alter (λ entry, {| entry_name := entry_name entry;
                        entry_columns := entry_columns entry ++ [column_name] |})
           (dict_key table_name)
           match schema !! dict_key table_name with
           | None =>
               <[dict_key table_name :=
                   {| entry_name := table_name; entry_columns := [] |}]> schema
           | Some _ => schema
           end,
     []).
Proof.
  intros Hname Hcol. unfold add_row, bind.
  rewrite table_name_of_run, Hname. cbn. by rewrite Hcol.
Qed.

Lemma add_row_columns (row : Row) (schema : Schema) k column_name key :
  row_entry row = Some (k, column_name) →
  columns_in (locals_of (add_row row schema)) key =
    columns_in schema key ++ (if decide (k = key) then [column_name] else []).
Proof.
  unfold row_entry.
  destruct (qualified_name row) as [table_name|] eqn:Hname; [|done].
  destruct (dict_getitem row "column_name") as [c|] eqn:Hcol; [|done].
  intros [= <- <-]. rewrite (add_row_run _ _ _ _ Hname Hcol). cbn.
  unfold columns_in. rewrite lookup_alter.
  destruct (decide (dict_key table_name = key)) as [<-|Hne].
  - destruct (schema !! dict_key table_name) as [entry|] eqn:Hs.
    + by rewrite Hs.
    + by rewrite lookup_insert_eq.
  - rewrite app_nil_r.
    destruct (schema !! dict_key table_name); [done|].
    by rewrite lookup_insert_ne.
Qed.

Lemma schema_fold_columns (rows : list Row) : ∀ schema : Schema,
  Forall (λ row, is_Some (row_entry row)) rows →
  outcome_of (for_each rows add_row schema) = Ret tt
  ∧ ∀ key, columns_in (locals_of (for_each rows add_row schema)) key =
           columns_in schema key ++ columns_for key rows.
Proof.
  induction rows as [|row rows IH]; intros schema Hwf.
  - split; [done|]. intros key. cbn. by rewrite app_nil_r.
  - inversion_clear Hwf as [|? ? [[k c] Hrow] Hrows].
    pose proof (λ key, add_row_columns row schema k c key Hrow) as Hcols.
    revert Hcols. rewrite for_each_cons. unfold row_entry in Hrow.
    destruct (qualified_name row) as [table_name|] eqn:Hname; [|done].
    destruct (dict_getitem row "column_name") as [c'|] eqn:Hcol; [|done].
    injection Hrow as <- <-.
    rewrite (add_row_run _ _ _ _ Hname Hcol). cbn [locals_of fst snd].
    intros Hcols.
    match goal with |- context [for_each rows add_row ?s1] =>
      destruct (IH s1 Hrows) as [Hout Hrest]; revert Hout Hrest;
      destruct (for_each rows add_row s1) as [[o l2] t2]
    end.
    cbn [outcome_of locals_of fst snd]. intros -> Hrest.
    split; [done|]. intros key.
    assert (columns_for key (row :: rows) =
            (if decide (dict_key table_name = key) then [c'] else [])
            ++ columns_for key rows) as ->.
    { unfold columns_for. cbn. unfold row_entry at 1.
      rewrite Hname, Hcol. by destruct (decide (dict_key table_name = key)). }
    by rewrite Hrest, Hcols, <- app_assoc.
Qed.

Lemma get_tables_run (schema : Schema) doc :
  outcome_of introspection = Ret (Some (Json doc), ONone) →
  outcome_of (_get_tables schema) =
    match outcome_of (for_each (rs_rows doc) add_row schema) with
    | Ret _ =>
        Ret (dict_values (locals_of (for_each (rs_rows doc) add_row schema)))
    | Raise e => Raise e
    end
  ∧ locals_of (_get_tables schema) =
      locals_of (for_each (rs_rows doc) add_row schema).
Proof.
  unfold _get_tables, introspection, single_target. cbn.
  destruct (run_query_on_datasource _ VNone _ ds_unbound) as [[o l] t].
  cbn. intros ->. cbn.
  destruct (for_each (rs_rows doc) add_row schema) as [[o l1] t1].
  cbn. by destruct o.
Qed.

(** C8. The qualified-name rule.  With default database [db], a row whose
    namespace is [ns], table [t] and column [c] is filed under the bare
    [t] when [ns] is [db] and under [ns.t] otherwise: that is the name
    [table_name_of] computes, and after [add_row] the dict holds, under
    that name, the columns it held followed by [c]. *)
Theorem qualified_name_rule (row : Row) (schema : Schema) db ns t c :
  cfg_db configuration = Some db →
  row !! "table_schema" = Some (VStr ns) →
  row !! "table_name" = Some (VStr t) →
  row !! "column_name" = Some (VStr c) →
  let qualified := if decide (ns = db) then t else ns +:+ "." +:+ t in
  outcome_of (table_name_of row schema) = Ret (VStr qualified)
  ∧ outcome_of (add_row row schema) = Ret tt
  ∧ columns_in (locals_of (add_row row schema)) (VStr qualified) =
      columns_in schema (VStr qualified) ++ [VStr c].
Proof.
  intros Hdb Hns Ht Hc qualified.
  assert (qualified_name row = Ret (VStr qualified)) as Hname.
  { assert (dict_getitem row "table_schema" = Ret (VStr ns)) as Hns'
      by (unfold dict_getitem; by rewrite Hns).
    assert (dict_getitem row "table_name" = Ret (VStr t)) as Ht'
      by (unfold dict_getitem; by rewrite Ht).
    unfold qualified_name, table_name_of. rewrite Hns', Ht', Hdb. cbn.
    unfold qualified.
    destruct (String.eqb_spec ns db) as [->|Hne]; cbn.
    - by rewrite decide_True.
    - by rewrite decide_False. }
  assert (dict_getitem row "column_name" = Ret (VStr c)) as Hcol
    by (unfold dict_getitem; by rewrite Hc).
  split; [by rewrite table_name_of_run|].
  split; [by rewrite (add_row_run _ _ _ _ Hname Hcol)|].
  rewrite (add_row_columns row schema (VStr qualified) (VStr c)).
  - by rewrite decide_True.
  - unfold row_entry. by rewrite Hname, Hcol.
Qed.

(** ** Further properties of the single-target executor *)

Ltac py_paths :=
  repeat (cbn;
    match goal with
    | |- context [match dumps_error ?d with _ => _ end] =>
        destruct (dumps_error d) eqn:?
    | |- context [error_message ?args ?l] =>
        let o := fresh "o" in
        destruct (error_message_pure args l) as [o ->]
    | |- context [match ?x with Ret _ => _ | Raise _ => _ end] =>
        destruct x eqn:?
    | |- context [match ?e with PymssqlError _ => _ | _ => _ end] =>
        destruct e
    | |- context [match description ?x with _ => _ end] =>
        destruct (description x) eqn:?
    end).

(** The one way to a Result Set: every driver call returned and the
    statement had a description. *)
Lemma single_target_result_inv q u db doc e :
  outcome_of (single_target q u db) = Ret (Some (Json doc), e) →
  e = ONone
  ∧ ∃ connection q' cur executed data descr,
      pymssql_connect (connect_args db) = Ret connection
      ∧ encode q (arg_charset (connect_args db)) = Ret q'
      ∧ cursor connection = Ret cur
      ∧ execute cur q' = Ret executed
      ∧ fetchall executed = Ret data
      ∧ description executed = Some descr
      ∧ cursor_close executed = Ret tt
      ∧ close connection = Ret tt
      ∧ doc =
          let columns :=
            fetch_columns (map (λ i, (i.1, types_map_get i.2)) descr) in
          {| rs_columns := columns;
             rs_rows :=
               map (fmap json_default)
                   (map (λ row, py_dict (zip (map col_name columns) row))
                        data) |}.
Proof.
  unfold single_target, run_query_on_datasource.
  py_paths; cbn; intros H; try discriminate H.
  injection H as <- <-.
  repeat match goal with x : unit |- _ => destruct x end.
  split; [done|]. by repeat eexists.
Qed.

Lemma error_message_cases {L} (args : list pyobj) (l : L) :
  (∃ v, error_message args l = (Ret v, l, []))
  ∨ error_message args l = (Raise IndexError, l, [])
  ∨ error_message args l = (Raise TypeError, l, []).
Proof.
  unfold error_message, tuple_getitem. cbn.
  destruct args as [|a0 [|a1 rest]]; cbn; [by auto| |by eauto].
  destruct a0 as [| |s|items]; cbn; [by auto..| |].
  - destruct (String.get 1 s); cbn; eauto.
  - unfold tuple_getitem. destruct (nth_error items 1); cbn; eauto.
Qed.

Lemma py_dict_lookup_Some {V} (pairs : list (string * V)) k v :
  py_dict pairs !! k = Some v → (k, v) ∈ pairs.
Proof.
  unfold py_dict.
  assert (∀ m : gmap string V,
            foldl (λ m kv, <[kv.1 := kv.2]> m) m pairs !! k = Some v →
            (k, v) ∈ pairs ∨ m !! k = Some v) as Hgen.
  { induction pairs as [|[k' v'] pairs IH]; intros m; cbn; [by auto|].
    intros H. destruct (IH _ H) as [Hin|Hm].
    - left. by apply elem_of_cons; right.
    - rewrite lookup_insert in Hm. case_decide; [|by auto].
      simplify_eq. left. apply elem_of_cons. by left. }
  intros H. destruct (Hgen ∅ H) as [|Hm]; [done|].
  by rewrite lookup_empty in Hm.
Qed.

(** X1. A returned pair never carries both a Result Set and an error:
    whenever [run_query_on_datasource] returns JSON text, the error value
    beside it is [None]. *)
Theorem result_excludes_error q u db json error :
  outcome_of (single_target q u db) = Ret (json, error) →
  json = None ∨ error = ONone.
Proof.
  destruct json as [[doc]|]; [|by auto].
  intros H. right. by destruct (single_target_result_inv _ _ _ _ _ H).
Qed.

(** X2. The rows of a returned Result Set only have keys that one of its
    columns names, and none of their values is a UUID object: the encoder
    has written those as strings. *)
Theorem result_rows_are_serialised q u db doc error :
  outcome_of (single_target q u db) = Ret (Some (Json doc), error) →
  Forall (λ row : Row,
            ∀ k v, row !! k = Some v →
                   k ∈ map col_name (rs_columns doc) ∧ ∀ s, v ≠ VUuid s)
         (rs_rows doc).
Proof.
  intros H.
  destruct (single_target_result_inv _ _ _ _ _ H)
    as (_ & c & q' & cur & ex & data & descr & _ & _ & _ & _ & _ & _ & _ & _ & ->).
  cbn. apply Forall_forall. intros row Hrow k v Hk.
  apply list_elem_of_fmap in Hrow as (row1 & -> & Hrow1).
  apply list_elem_of_fmap in Hrow1 as (rec & -> & _).
  rewrite lookup_fmap in Hk.
  destruct (py_dict _ !! k) as [v0|] eqn:Hv0; [|done].
  apply py_dict_lookup_Some in Hv0. injection Hk as <-. split.
  - by apply elem_of_zip_l in Hv0.
  - intros s. by destruct v0.
Qed.

(** X3. The success path.  When every driver call returns, the
    statement has a description and [json.dumps] accepts the data, the
    call returns JSON text with a [None] error; the document has the
    columns [fetch_columns] built and one row per fetched record; and the
    driver saw, in this order, the connect, the cursor, the execution of
    the encoded query, the fetch, the close of the cursor and the close
    of the connection. *)
Theorem query_result_is_returned q u db connection q' cur executed data
    descr :
  pymssql_connect (connect_args db) = Ret connection →
  encode q (arg_charset (connect_args db)) = Ret q' →
  cursor connection = Ret cur →
  execute cur q' = Ret executed →
  fetchall executed = Ret data →
  description executed = Some descr →
  dumps_error (result_set_of descr data) = None →
  cursor_close executed = Ret tt →
  close connection = Ret tt →
  ∃ doc,
    outcome_of (single_target q u db) = Ret (Some (Json doc), ONone)
    ∧ rs_columns doc =
        fetch_columns (map (λ i, (i.1, types_map_get i.2)) descr)
    ∧ length (rs_rows doc) = length data
    ∧ trace_of (single_target q u db) =
        [EvConnect (connect_args db); EvCursor; EvLogDebug q'; EvExecute q';
         EvFetchall; EvCursorClose; EvClose].
Proof.
  intros Hc He Hcur Hex Hf Hd Hj Hcc Hcl.
  unfold single_target, run_query_on_datasource. cbn.
  rewrite Hc. cbn. cbn in He. rewrite He. cbn. rewrite Hcur. cbn.
  rewrite Hex. cbn. rewrite Hf. cbn. rewrite Hd. cbn.
  unfold result_set_of in Hj. cbv zeta in Hj. rewrite Hj. cbn.
  rewrite Hcc. cbn. rewrite Hcl. cbn. eexists. split; [reflexivity|]. cbn.
  by rewrite !length_map.
Qed.

(** X20. Data that cannot be written.  When every driver call returns
    and the statement has a description, but [json.dumps] raises an
    exception [e] of class [Exception] on the data (a byte string that is
    not UTF-8, say), the call raises [e]: no result is returned, the
    connection is closed by the [finally] clause, and the cursor, whose
    [close] comes after the serialisation, is not. *)
Theorem unwritable_data_is_fatal q u db connection q' cur executed data
    descr e :
  pymssql_connect (connect_args db) = Ret connection →
  encode q (arg_charset (connect_args db)) = Ret q' →
  cursor connection = Ret cur →
  execute cur q' = Ret executed →
  fetchall executed = Ret data →
  description executed = Some descr →
  dumps_error (result_set_of descr data) = Some e →
  is_Exception e = true →
  (∀ args, e ≠ PymssqlError args) →
  close connection = Ret tt →
  outcome_of (single_target q u db) = Raise e
  ∧ trace_of (single_target q u db) =
      [EvConnect (connect_args db); EvCursor; EvLogDebug q'; EvExecute q';
       EvFetchall; EvClose].
Proof.
  intros Hc He Hcur Hex Hf Hd Hj Hexc Hne Hcl.
  unfold single_target, run_query_on_datasource. cbn.
  rewrite Hc. cbn. cbn in He. rewrite He. cbn. rewrite Hcur. cbn.
  rewrite Hex. cbn. rewrite Hf. cbn. rewrite Hd. cbn.
  unfold result_set_of in Hj. cbv zeta in Hj. rewrite Hj. cbn.
  destruct e; try discriminate Hexc; cbn; rewrite ?Hcl; cbn; try done.
  by destruct (Hne args).
Qed.

(** X4. A statement without a result set.  When the driver reports no
    description, the call returns [(None, "No data was returned.")]: the
    statement ran and whatever was fetched is dropped; the cursor and the
    connection are closed. *)
Theorem no_description_is_reported q u db connection q' cur executed data :
  pymssql_connect (connect_args db) = Ret connection →
  encode q (arg_charset (connect_args db)) = Ret q' →
  cursor connection = Ret cur →
  execute cur q' = Ret executed →
  fetchall executed = Ret data →
  description executed = None →
  cursor_close executed = Ret tt →
  close connection = Ret tt →
  outcome_of (single_target q u db) =
    Ret (None, OStr "No data was returned.")
  ∧ trace_of (single_target q u db) =
      [EvConnect (connect_args db); EvCursor; EvLogDebug q'; EvExecute q';
       EvFetchall; EvCursorClose; EvClose].
Proof.
  intros Hc He Hcur Hex Hf Hd Hcc Hcl.
  unfold single_target, run_query_on_datasource. cbn.
  rewrite Hc. cbn. cbn in He. rewrite He. cbn. rewrite Hcur. cbn.
  rewrite Hex. cbn. rewrite Hf. cbn. rewrite Hd. cbn. rewrite Hcc. cbn.
  by rewrite Hcl.
Qed.

(** X5. Cancellation.  When [execute] or [fetchall] is cut by a
    [KeyboardInterrupt], the connection is told to cancel and is then
    closed, and the call returns [(None, "Query cancelled by user.")]
    instead of raising. *)
Theorem interrupt_is_reported q u db connection q' cur :
  pymssql_connect (connect_args db) = Ret connection →
  encode q (arg_charset (connect_args db)) = Ret q' →
  cursor connection = Ret cur →
  (execute cur q' = Raise KeyboardInterrupt
   ∨ ∃ executed, execute cur q' = Ret executed
                 ∧ fetchall executed = Raise KeyboardInterrupt) →
  cancel connection = Ret tt →
  close connection = Ret tt →
  outcome_of (single_target q u db) =
    Ret (None, OStr "Query cancelled by user.")
  ∧ ∃ t, trace_of (single_target q u db) = t ++ [EvCancel; EvClose].
Proof.
  intros Hc He Hcur Hint Hca Hcl.
  unfold single_target, run_query_on_datasource. cbn.
  rewrite Hc. cbn. cbn in He. rewrite He. cbn. rewrite Hcur. cbn.
  destruct Hint as [Hex|(ex & Hex & Hf)]; rewrite Hex; cbn.
  - rewrite Hca. cbn. rewrite Hcl. cbn. split; [done|].
    by exists [EvConnect (connect_args db); EvCursor; EvLogDebug q';
               EvExecute q'].
  - rewrite Hf. cbn. rewrite Hca. cbn. rewrite Hcl. cbn. split; [done|].
    by exists [EvConnect (connect_args db); EvCursor; EvLogDebug q';
               EvExecute q'; EvFetchall].
Qed.

(** X6. A failing [close] masks everything.  When [connection.close()]
    raises, the call raises that exception, whatever the query had
    produced or raised before. *)
Theorem close_failure_replaces_outcome q u db connection e :
  pymssql_connect (connect_args db) = Ret connection →
  close connection = Raise e →
  outcome_of (single_target q u db) = Raise e.
Proof.
  intros Hc Hcl. unfold single_target, run_query_on_datasource.
  py_paths; cbn; congruence.
Qed.

(** X7. With a connection whose [cancel] and [close] return, the call
    never lets a [pymssql.Error] or a [KeyboardInterrupt] through: both
    are turned into returned error values. *)
Theorem driver_errors_never_escape q u db e :
  (∀ connection, pymssql_connect (connect_args db) = Ret connection →
                 cancel connection = Ret tt ∧ close connection = Ret tt) →
  outcome_of (single_target q u db) = Raise e →
  (∀ args, e ≠ PymssqlError args) ∧ e ≠ KeyboardInterrupt.
Proof.
  intros Hok. unfold single_target, run_query_on_datasource. cbn.
  destruct (pymssql_connect (connect_args db)) as [c|e0] eqn:Hc.
  - destruct (Hok c eq_refl) as [Hca Hcl]. clear Hok.
    repeat (cbn;
      match goal with
      | |- context [cancel c] => rewrite Hca
      | |- context [match dumps_error ?d with _ => _ end] =>
          destruct (dumps_error d) eqn:?
      | |- context [close c] => rewrite Hcl
      | |- context [error_message ?args ?l] =>
          destruct (error_message_cases args l) as [[? ->]|[-> | ->]]
      | |- context [match ?x with Ret _ => _ | Raise _ => _ end] =>
          destruct x eqn:?
      | |- context [match ?e with PymssqlError _ => _ | _ => _ end] =>
          destruct e
      | |- context [match description ?x with _ => _ end] =>
          destruct (description x) eqn:?
      end);
    cbn; intros [= <-]; done.
  - clear Hok.
    destruct e0; cbn;
      try destruct (error_message_cases args ds_unbound)
        as [[? ->]|[-> | ->]];
      cbn; intros [= <-]; done.
Qed.

(** X8. The message of a one-string driver error.  A [pymssql.Error]
    whose [args] is a single string has no [args[1]], so the handler
    takes [args[0][1]]: the reported error is the second character of the
    message. *)
Theorem one_string_error_is_cut q u db connection q' cur s c :
  pymssql_connect (connect_args db) = Ret connection →
  encode q (arg_charset (connect_args db)) = Ret q' →
  cursor connection = Ret cur →
  execute cur q' = Raise (PymssqlError [OStr s]) →
  String.get 1 s = Some c →
  close connection = Ret tt →
  outcome_of (single_target q u db) =
    Ret (None, OStr (String c EmptyString)).
Proof.
  intros Hc He Hcur Hex Hs Hcl.
  unfold single_target, run_query_on_datasource. cbn.
  rewrite Hc. cbn. cbn in He. rewrite He. cbn. rewrite Hcur. cbn.
  rewrite Hex. cbn. unfold error_message. cbn. rewrite Hs. cbn.
  by rewrite Hcl.
Qed.

(** ** Further properties of the fan-out *)

Lemma fan_out_trace q u ds : ∀ l tr,
  rq_total_rows l = Some tr →
  trace_of (for_each ds (query_target q u) l) =
    concat (map (λ d, target_trace q u d ++ target_log q u d)
                (attempted q u ds)).
Proof.
  induction ds as [|d ds IH]; intros l tr Htr; [done|].
  rewrite for_each_cons, (query_target_run _ _ _ _ _ Htr).
  cbn [attempted map concat]. unfold target_log, interrupted.
  destruct (target_outcome q u d) as [[[[doc]|] err]|e].
  - rewrite app_nil_r.
    match goal with |- context [for_each ds _ ?l1] =>
      specialize (IH l1 (tr ++ rs_rows doc) eq_refl); revert IH;
      destruct (for_each ds (query_target q u) l1) as [[o l2] t2]
    end.
    cbn. by intros ->.
  - match goal with |- context [for_each ds _ ?l1] =>
      specialize (IH l1 tr Htr); revert IH;
      destruct (for_each ds (query_target q u) l1) as [[o l2] t2]
    end.
    cbn. by intros ->.
  - destruct (is_Exception e); cbn.
    + specialize (IH l tr Htr). revert IH.
      destruct (for_each ds (query_target q u) l) as [[o l2] t2].
      cbn. by intros ->.
    + by rewrite !app_nil_r.
Qed.

Lemma run_query_trace q u :
  trace_of (run_query q u rq_unbound) =
    trace_of (discovery u)
    ++ match outcome_of (discovery u) with
       | Ret (Some (Json doc), ONone) =>
           concat (map (λ d, target_trace q u d ++ target_log q u d)
                       (attempted q u (rs_rows doc)))
       | _ => []
       end.
Proof.
  destruct (outcome_of (discovery u)) as [[[[doc]|] err]|e] eqn:Hd.
  2-3: revert Hd; unfold run_query, discovery, single_target; cbn;
       destruct (run_query_on_datasource _ u _ ds_unbound) as [[o l] t];
       cbn; intros ->; cbn; try destruct err; cbn; by rewrite ?app_nil_r.
  destruct err.
  2-4: revert Hd; unfold run_query, discovery, single_target; cbn;
       destruct (run_query_on_datasource _ u _ ds_unbound) as [[o l] t];
       cbn; intros ->; cbn; by rewrite ?app_nil_r.
  rewrite (run_query_enters_loop _ _ _ Hd). cbv zeta.
  match goal with |- context [for_each _ _ ?l0] =>
    pose proof (fan_out_trace q u (rs_rows doc) l0 [] eq_refl) as Ht;
    revert Ht;
    destruct (for_each (rs_rows doc) (query_target q u) l0) as [[o l1] t1]
  end.
  cbn. intros ->.
  destruct o; [|done].
  by destruct (rq_results l1), (rq_total_rows l1), (rq_error l1).
Qed.

Lemma connected_databases_app t1 t2 :
  connected_databases (t1 ++ t2) =
    connected_databases t1 ++ connected_databases t2.
Proof. apply omap_app. Qed.

Lemma target_connects_once q u d :
  connected_databases (target_trace q u d ++ target_log q u d) =
    match d !! "datasource" with
    | Some db => [db]
    | None => []
    end.
Proof.
  rewrite connected_databases_app.
  assert (connected_databases (target_log q u d) = []) as ->.
  { unfold target_log.
    destruct (target_outcome q u d) as [[[|] ?]|e]; try done.
    by destruct (is_Exception e). }
  rewrite app_nil_r. unfold target_trace, dict_getitem.
  destruct (d !! "datasource") as [db|]; [|done].
  by destruct (single_target_shape q u db) as [-> _].
Qed.

(** X10. One connection per target, in discovery order.  When discovery
    succeeds, the databases [run_query] connects to are the master
    database and then, in discovery order, the [datasource] of every row
    the loop reaches; a row without that key is passed over without a
    connection, and the rows after an interrupted target are not
    reached. *)
Theorem connections_follow_discovery_order q u doc :
  outcome_of (discovery u) = Ret (Some (Json doc), ONone) →
  connected_databases (trace_of (run_query q u rq_unbound)) =
    VStr (cfg_get (cfg_master_db configuration) "")
    :: omap (λ d : Row, d !! "datasource") (attempted q u (rs_rows doc)).
Proof.
  intros Hd. rewrite run_query_trace, Hd, connected_databases_app.
  destruct (single_target_shape
              (cfg_get (cfg_datasources_query configuration) "") u
              (VStr (cfg_get (cfg_master_db configuration) ""))) as [Hm _].
  fold (discovery u) in Hm. rewrite Hm. cbn [app]. f_equal.
  induction (attempted q u (rs_rows doc)) as [|d ds IH]; [done|].
  cbn [map concat]. rewrite connected_databases_app, target_connects_once, IH.
  cbn. by destruct (d !! "datasource").
Qed.

Lemma opened_connections_app t1 t2 :
  opened_connections (t1 ++ t2) =
    opened_connections t1 + opened_connections t2.
Proof.
  unfold opened_connections. by rewrite List.filter_app, length_app.
Qed.

Lemma closed_connections_app t1 t2 :
  closed_connections (t1 ++ t2) =
    closed_connections t1 + closed_connections t2.
Proof.
  unfold closed_connections. by rewrite List.filter_app, length_app.
Qed.

Lemma single_target_balanced q u db :
  opened_connections (trace_of (single_target q u db)) =
    closed_connections (trace_of (single_target q u db)).
Proof.
  unfold single_target, run_query_on_datasource,
    opened_connections, closed_connections.
  py_paths; cbn;
    repeat match goal with
           | H : pymssql_connect _ = _ |- _ => rewrite H
           end; done.
Qed.

Lemma target_balanced q u d :
  opened_connections (target_trace q u d ++ target_log q u d) =
    closed_connections (target_trace q u d ++ target_log q u d).
Proof.
  rewrite opened_connections_app, closed_connections_app.
  assert (opened_connections (target_log q u d) = 0
          ∧ closed_connections (target_log q u d) = 0) as [-> ->].
  { unfold target_log.
    destruct (target_outcome q u d) as [[[|] ?]|e]; try done.
    by destruct (is_Exception e). }
  unfold target_trace. destruct (dict_getitem d "datasource"); [|done].
  by rewrite single_target_balanced.
Qed.

(** X11. Every connection is closed.  Whatever the driver does, in a run
    of [run_query] the number of [close] calls equals the number of
    connections that [pymssql.connect] handed over: none is left open,
    whether the run returns or raises. *)
Theorem run_query_closes_every_connection q u :
  opened_connections (trace_of (run_query q u rq_unbound)) =
    closed_connections (trace_of (run_query q u rq_unbound)).
Proof.
  rewrite run_query_trace, opened_connections_app, closed_connections_app.
  unfold discovery at 1 3. rewrite single_target_balanced. f_equal.
  destruct (outcome_of (discovery u)) as [[[[doc]|] []]|]; try done.
  induction (attempted q u (rs_rows doc)) as [|d ds IH]; [done|].
  cbn [map concat].
  by rewrite opened_connections_app, closed_connections_app,
       target_balanced, IH.
Qed.

(** X12. Rows and an error together.  When the last discovery row
    reports a soft error and an earlier one produced a Result Set,
    [run_query] returns the rows gathered so far together with that
    error: an error value other than [None] does not mean that no rows
    came back. *)
Theorem run_query_reports_last_error q u doc pre d err T' :
  outcome_of (discovery u) = Ret (Some (Json doc), ONone) →
  rs_rows doc = pre ++ [d] →
  target_outcome q u d = Ret (None, err) →
  T' ∈ pre →
  is_Some (target_result q u T') →
  Forall (λ d, interrupted q u d = false) pre →
  ∃ rs,
    outcome_of (run_query q u rq_unbound) = Ret (Json rs, err)
    ∧ rs_rows rs =
        map (fmap json_default) (concat (map (target_rows q u) pre)).
Proof.
  intros Hdisc Hds Hd HT' Hres Hint.
  assert (Forall (λ d, interrupted q u d = false) (rs_rows doc)) as Hall.
  { rewrite Hds. apply Forall_app. split; [done|]. constructor; [|done].
    unfold interrupted. by rewrite Hd. }
  pose proof (run_query_completes q u doc Hdisc Hall) as Hrun.
  assert (target_result q u d = None) as Hnone
    by (unfold target_result; by rewrite Hd).
  assert (target_error q u d = Some err) as Herr
    by (unfold target_error; by rewrite Hd).
  assert (target_rows q u d = []) as Hrows
    by (unfold target_rows; by rewrite Hnone).
  rewrite Hds, !omap_app, map_app, concat_app in Hrun. cbn in Hrun.
  rewrite Hnone, Herr, Hrows, !app_nil_r, last_snoc in Hrun.
  destruct (last_omap_is_Some (target_result q u) _ _ HT' Hres)
    as [last_doc Hlast].
  rewrite Hlast in Hrun. by eexists.
Qed.

Lemma json_default_idemp o : json_default (json_default o) = json_default o.
Proof. by destruct o. Qed.

Lemma target_rows_encoded q u d :
  map (fmap json_default) (target_rows q u d) = target_rows q u d.
Proof.
  unfold target_rows, target_result, target_outcome.
  destruct (dict_getitem d "datasource") as [db|]; [|done].
  destruct (outcome_of (single_target q u db)) as [[[[doc]|] e]|] eqn:H;
    [|done..].
  destruct (single_target_result_inv _ _ _ _ _ H)
    as (_ & c & q' & cur & ex & data & descr & _ & _ & _ & _ & _ & _ & _ & _ & ->).
  cbn. rewrite <- (list_fmap_compose _ (fmap json_default)).
  apply list_fmap_ext. intros _ row _. cbn.
  rewrite <- map_fmap_compose. apply map_fmap_ext.
  intros k v _. apply json_default_idemp.
Qed.

(** X13. The aggregate carries the targets' rows as they are.  When
    [run_query] returns, the rows of its result are exactly the rows of
    the targets' Result Sets, concatenated in discovery order: parsing
    each target's JSON text and serialising the aggregate again changes
    no row. *)
Theorem aggregate_rows_are_target_rows q u doc rs err :
  outcome_of (discovery u) = Ret (Some (Json doc), ONone) →
  outcome_of (run_query q u rq_unbound) = Ret (Json rs, err) →
  rs_rows rs = concat (map (target_rows q u) (rs_rows doc)).
Proof.
  intros Hdisc Hret.
  pose proof (run_query_returned_inv _ _ _ _ Hdisc Hret) as Hint.
  rewrite (run_query_completes _ _ _ Hdisc Hint) in Hret.
  destruct (last (omap (target_result q u) (rs_rows doc))); [|done].
  injection Hret as <- _. cbn [rs_rows].
  clear. induction (rs_rows doc) as [|d ds IH]; [done|].
  cbn [map concat]. rewrite map_app, target_rows_encoded. by f_equal.
Qed.

(** ** Further properties of the schema fold *)

Lemma get_tables_cases (schema : Schema) :
  match outcome_of introspection with
  | Ret (Some (Json doc), ONone) =>
      _get_tables schema =
        match for_each (rs_rows doc) add_row schema with
        | (Ret _, l, t) => (Ret (dict_values l), l, trace_of introspection ++ t)
        | (Raise e, l, t) => (Raise e, l, trace_of introspection ++ t)
        end
  | Ret (None, ONone) =>
      _get_tables schema = (Raise TypeError, schema, trace_of introspection)
  | Ret (_, _) =>
      _get_tables schema =
        (Raise (PyException "Failed getting schema."), schema,
         trace_of introspection)
  | Raise e => _get_tables schema = (Raise e, schema, trace_of introspection)
  end.
Proof.
  unfold _get_tables, introspection, single_target. cbn.
  destruct (run_query_on_datasource _ VNone _ ds_unbound) as [[o l] t].
  cbn. destruct o as [[j err]|e]; cbn; [|done].
  destruct err; cbn; try (destruct j as [[?]|]; by rewrite ?app_nil_r).
  destruct j as [[doc]|]; cbn; [|by rewrite app_nil_r].
  destruct (for_each (rs_rows doc) add_row schema) as [[o l1] t1].
  cbn. destruct o; cbn; by rewrite ?app_nil_r.
Qed.

Lemma add_row_locals (row : Row) (schema : Schema) :
  locals_of (add_row row schema) =
    match qualified_name row with
    | Raise _ => schema
    | Ret table_name =>
        let filed :=
          match schema !! dict_key table_name with
          | None =>
              <[dict_key table_name :=
                  {| entry_name := table_name; entry_columns := [] |}]> schema
          | Some _ => schema
          end in
        match dict_getitem row "column_name" with
        | Raise _ => filed
        | Ret column_name =>
            alter (λ entry,
                     {| entry_name := entry_name entry;
                        entry_columns :=
                          entry_columns entry ++ [column_name] |})
                  (dict_key table_name) filed
        end
    end.
Proof.
  unfold add_row, bind. rewrite table_name_of_run.
  destruct (qualified_name row) as [table_name|]; cbn; [|done].
  by destruct (dict_getitem row "column_name").
Qed.

Lemma schema_fold_preserves (P : Schema → Prop) (rows : list Row) :
  (∀ row s, P s → P (locals_of (add_row row s))) →
  ∀ s, P s → P (locals_of (for_each rows add_row s)).
Proof.
  intros Hstep. induction rows as [|row rows IH]; intros s Hs; [done|].
  rewrite for_each_cons. specialize (Hstep row s Hs).
  destruct (add_row row s) as [[[[]|e] l1] t1]; cbn in Hstep |- *; [|done].
  specialize (IH l1 Hstep).
  by destruct (for_each rows add_row l1) as [[o l2] t2].
Qed.

Lemma get_tables_preserves (P : Schema → Prop) (schema : Schema) :
  (∀ row s, P s → P (locals_of (add_row row s))) →
  P schema → P (locals_of (_get_tables schema)).
Proof.
  intros Hstep Hs. pose proof (get_tables_cases schema) as H.
  destruct (outcome_of introspection) as [[[[doc]|] []]|];
    try (by rewrite H).
  rewrite H.
  pose proof (schema_fold_preserves P (rs_rows doc) Hstep schema Hs) as Hf.
  by destruct (for_each (rs_rows doc) add_row schema) as [[[] l] t].
Qed.

(** X15. A failing metadata query.  If the metadata call does not hand
    back a Result Set with a [None] error, [_get_tables] raises
    ([Exception("Failed getting schema.")] when an error value was
    reported), the caller's dict is left as it was, and the only driver
    calls are those of that one call. *)
Theorem introspection_failure_is_fatal (schema : Schema) :
  (∀ doc, outcome_of introspection ≠ Ret (Some (Json doc), ONone)) →
  ∃ e,
    outcome_of (_get_tables schema) = Raise e
    ∧ (∀ j err, outcome_of introspection = Ret (j, err) → err ≠ ONone →
         e = PyException "Failed getting schema.")
    ∧ locals_of (_get_tables schema) = schema
    ∧ trace_of (_get_tables schema) = trace_of introspection.
Proof.
  intros Hfail. pose proof (get_tables_cases schema) as H.
  destruct (outcome_of introspection) as [[[[doc]|] err]|e] eqn:Hi.
  - destruct err; [by destruct (Hfail doc)|..]; rewrite H; eexists;
      (split; [reflexivity|]); (split; [|done]); intros ? ? [= _ <-]; done.
  - destruct err; rewrite H; eexists;
      (split; [reflexivity|]); (split; [|done]); intros ? ? [= _ <-]; done.
  - rewrite H. exists e. split; [done|]. split; [|done]. intros ? ? [=].
Qed.

(** X16. Nothing is taken out of the caller's dict.  Whatever the
    metadata query returns, and also when [_get_tables] raises midway,
    every name the dict held is still there, and the column list under a
    name is the list it had before, possibly extended at the end. *)
Theorem get_tables_only_appends (schema : Schema) (key : scalar) :
  columns_in schema key `prefix_of`
    columns_in (locals_of (_get_tables schema)) key
  ∧ (is_Some (schema !! key) →
     is_Some (locals_of (_get_tables schema) !! key)).
Proof.
  apply (get_tables_preserves
           (λ s, columns_in schema key `prefix_of` columns_in s key
                 ∧ (is_Some (schema !! key) → is_Some (s !! key))));
    [|done].
  intros row s [Hpre Hdom]. rewrite add_row_locals.
  assert (∀ table_name,
            let filed :=
              match s !! dict_key table_name with
              | None =>
                  <[dict_key table_name :=
                      {| entry_name := table_name; entry_columns := [] |}]> s
              | Some _ => s
              end in
            columns_in filed key = columns_in s key
            ∧ (is_Some (s !! key) → is_Some (filed !! key))) as Hfiled.
  { intros table_name. cbn.
    destruct (s !! dict_key table_name) eqn:Hs; [done|].
    unfold columns_in. rewrite lookup_insert. case_decide; [|by split].
    subst. rewrite Hs. split; [done|]. by intros []. }
  destruct (qualified_name row) as [table_name|]; [|done].
  specialize (Hfiled table_name). cbn zeta in Hfiled |- *.
  revert Hfiled.
  generalize (match s !! dict_key table_name with
              | Some _ => s
              | None =>
                  <[dict_key table_name :=
                      {| entry_name := table_name; entry_columns := [] |}]> s
              end).
  intros filed [Hcols Hsome].
  destruct (dict_getitem row "column_name") as [c|].
  - split.
    + unfold columns_in in Hcols |- *. rewrite lookup_alter.
      case_decide; [|by rewrite Hcols]. subst.
      destruct (filed !! dict_key table_name) as [entry|]; cbn in Hcols |- *.
      * etrans; [exact Hpre|]. unfold columns_in. rewrite <- Hcols.
        by apply prefix_app_r.
      * unfold columns_in in Hpre. by rewrite <- Hcols in Hpre.
    + intros Hk. specialize (Hsome (Hdom Hk)).
      rewrite lookup_alter. case_decide; [|done]. subst.
      by apply fmap_is_Some.
  - split; [by rewrite Hcols|auto].
Qed.

(** X17. Entries sit under their own name.  If every entry of the
    caller's dict is filed under the key of its [name], so is every entry
    of the dict after [_get_tables], whether it returned or raised: a new
    entry is created with the name it is filed under, and appending a
    column does not touch the name. *)
Theorem get_tables_files_entries_by_name (schema : Schema) :
  (∀ k entry, schema !! k = Some entry → dict_key (entry_name entry) = k) →
  ∀ k entry, locals_of (_get_tables schema) !! k = Some entry →
             dict_key (entry_name entry) = k.
Proof.
  apply (get_tables_preserves
           (λ s, ∀ k entry, s !! k = Some entry →
                            dict_key (entry_name entry) = k)).
  intros row s Hs. rewrite add_row_locals.
  destruct (qualified_name row) as [table_name|]; [|done].
  assert (∀ k entry,
            match s !! dict_key table_name with
            | None =>
                <[dict_key table_name :=
                    {| entry_name := table_name; entry_columns := [] |}]> s
            | Some _ => s
            end !! k = Some entry →
            dict_key (entry_name entry) = k) as Hfiled.
  { intros k entry. destruct (s !! dict_key table_name); [by apply Hs|].
    rewrite lookup_insert. case_decide; [|by apply Hs].
    by intros [= <-]. }
  cbn zeta. revert Hfiled.
  generalize (match s !! dict_key table_name with
              | Some _ => s
              | None =>
                  <[dict_key table_name :=
                      {| entry_name := table_name; entry_columns := [] |}]> s
              end).
  intros filed Hfiled.
  destruct (dict_getitem row "column_name") as [c|]; [|done].
  intros k entry. rewrite lookup_alter. case_decide; [|by apply Hfiled].
  subst.
  destruct (filed !! dict_key table_name) as [entry0|] eqn:H0; [|done].
  cbn. intros [= <-]. cbn. by apply Hfiled.
Qed.

(** X18. A configuration without [db].  The metadata call falls back on
    the empty database name, but the loop reads [self.configuration['db']]:
    with no [db] key, the first row that has a [table_schema] makes
    [_get_tables] raise [KeyError('db')] and the dict is left as it was;
    only an empty answer gets through. *)
Theorem get_tables_needs_db (schema : Schema) doc :
  cfg_db configuration = None →
  outcome_of introspection = Ret (Some (Json doc), ONone) →
  match rs_rows doc with
  | [] => outcome_of (_get_tables schema) = Ret (dict_values schema)
  | row :: _ =>
      is_Some (row !! "table_schema") →
      outcome_of (_get_tables schema) = Raise (KeyError "db")
  end
  ∧ locals_of (_get_tables schema) = schema.
Proof.
  intros Hdb Hin. pose proof (get_tables_cases schema) as H.
  rewrite Hin in H. rewrite H. clear H.
  destruct (rs_rows doc) as [|row rows]; [done|].
  rewrite for_each_cons.
  assert (∃ e, add_row row schema = (Raise e, schema, [])
               ∧ (is_Some (row !! "table_schema") → e = KeyError "db"))
    as (e & -> & He).
  { unfold add_row, bind. rewrite table_name_of_run.
    unfold qualified_name, table_name_of, dict_getitem. rewrite Hdb.
    destruct (row !! "table_schema"); cbn; eexists; by split. }
  cbn. split; [|done]. by intros ->%He.
Qed.

Lemma fan_out_stops q u pre d post e : ∀ l tr,
  rq_total_rows l = Some tr →
  Forall (λ d, interrupted q u d = false) pre →
  target_outcome q u d = Raise e →
  is_Exception e = false →
  outcome_of (for_each (pre ++ d :: post) (query_target q u) l) = Raise e.
Proof.
  induction pre as [|p pre IH]; intros l tr Htr Hpre Hd He; cbn [app].
  - rewrite for_each_cons, (query_target_run _ _ _ _ _ Htr), Hd, He. done.
  - inversion_clear Hpre as [|? ? Hp Hpre'].
    rewrite for_each_cons.
    destruct (query_target_continues _ _ _ _ _ Htr Hp)
      as (l1 & tr1 & t & -> & Htr1).
    specialize (IH l1 tr1 Htr1 Hpre' Hd He). revert IH.
    destruct (for_each (pre ++ d :: post) (query_target q u) l1)
      as [[o l2] t2].
    cbn. by intros ->.
Qed.

Lemma attempted_until_interrupt q u pre d post :
  Forall (λ d, interrupted q u d = false) pre →
  interrupted q u d = true →
  attempted q u (pre ++ d :: post) = pre ++ [d].
Proof.
  intros Hpre Hd. induction Hpre as [|p pre Hp _ IH]; cbn.
  - by rewrite Hd.
  - by rewrite Hp, IH.
Qed.

(** X19. An interrupt ends the run.  When the execution of a target
    raises outside the [Exception] hierarchy (a [KeyboardInterrupt] out
    of [cancel] or [close], say), the loop's [except Exception] does not
    catch it: [run_query] raises that exception and no later target is
    connected to. *)
Theorem interrupt_ends_run_query q u doc pre d post e :
  outcome_of (discovery u) = Ret (Some (Json doc), ONone) →
  rs_rows doc = pre ++ d :: post →
  Forall (λ d, interrupted q u d = false) pre →
  target_outcome q u d = Raise e →
  is_Exception e = false →
  outcome_of (run_query q u rq_unbound) = Raise e
  ∧ connected_databases (trace_of (run_query q u rq_unbound)) =
      VStr (cfg_get (cfg_master_db configuration) "")
      :: omap (λ d : Row, d !! "datasource") (pre ++ [d]).
Proof.
  intros Hdisc Hds Hpre Hd He.
  assert (interrupted q u d = true) as Hint
    by (unfold interrupted; by rewrite Hd, He).
  split.
  - rewrite (run_query_enters_loop _ _ _ Hdisc). cbv zeta. rewrite Hds.
    match goal with |- context [for_each _ _ ?l0] =>
      pose proof (fan_out_stops q u pre d post e l0 [] eq_refl Hpre Hd He)
        as Hout;
      revert Hout;
      destruct (for_each (pre ++ d :: post) (query_target q u) l0)
        as [[o l1] t1]
    end.
    cbn. by intros ->.
  - rewrite run_query_trace, Hdisc, connected_databases_app, Hds,
      (attempted_until_interrupt _ _ _ _ _ Hpre Hint).
    destruct (single_target_shape
                (cfg_get (cfg_datasources_query configuration) "") u
                (VStr (cfg_get (cfg_master_db configuration) ""))) as [Hm _].
    fold (discovery u) in Hm. rewrite Hm. cbn [app]. f_equal.
    induction (pre ++ [d]) as [|x xs IH]; [done|].
    cbn [map concat].
    rewrite connected_databases_app, target_connects_once, IH.
    cbn. by destruct (x !! "datasource").
Qed.

End Runner.

(** *** Two runs of the schema introspection *)

(** C9. Run to run.  Take two runs of [_get_tables] under the same
    configuration, on servers that may differ in everything but the rows
    the metadata query returns, each run starting from a dict with the
    same content (the caller hands in a fresh one).  Both runs end alike
    and leave the same dict; and when every row has its three fields, the
    column list filed under a name is what the dict held there followed
    by the column names of the rows of that name, in row order. *)
Theorem get_tables_run_to_run
    (connect1 connect2 : ConnectArgs → outcome Connection)
    (encode : string → string → outcome string)
    (fetch_columns : list (string * option column_type) → list Column)
    (configuration : Configuration) (dumps_error : ResultSet → option exn)
    (schema : Schema) (doc : ResultSet) :
  outcome_of (introspection connect1 encode fetch_columns configuration
                dumps_error) =
    Ret (Some (Json doc), ONone) →
  outcome_of (introspection connect2 encode fetch_columns configuration
                dumps_error) =
    Ret (Some (Json doc), ONone) →
  let run1 := _get_tables connect1 encode fetch_columns configuration
                dumps_error schema in
  let run2 := _get_tables connect2 encode fetch_columns configuration
                dumps_error schema in
  outcome_of run1 = outcome_of run2
  ∧ locals_of run1 = locals_of run2
  ∧ (Forall (λ row, is_Some (row_entry configuration row)) (rs_rows doc) →
     returned (outcome_of run1) = true
     ∧ ∀ key, columns_in (locals_of run1) key =
              columns_in schema key ++ columns_for configuration key (rs_rows doc)).
Proof.
  intros H1 H2 run1 run2.
  destruct (get_tables_run connect1 encode fetch_columns configuration
              dumps_error schema doc H1) as [Ho1 Hl1].
  destruct (get_tables_run connect2 encode fetch_columns configuration
              dumps_error schema doc H2) as [Ho2 Hl2].
  unfold run1, run2. rewrite Ho1, Ho2, Hl1, Hl2.
  split; [done|]. split; [done|]. intros Hwf.
  destruct (schema_fold_columns configuration (rs_rows doc) schema Hwf)
    as [Hout Hcols].
  rewrite Hout. done.
Qed.

(** ** The sample deployment, run *)

#[local] Abbreviation sample_query := "SELECT id, name FROM t".
#[local] Abbreviation sample_run_query cfg :=
  (run_query Sample.pymssql_connect Sample.encode Sample.fetch_columns cfg
     Sample.dumps_error sample_query VNone rq_unbound).
#[local] Abbreviation sample_target_rows :=
  (target_rows Sample.pymssql_connect Sample.encode Sample.fetch_columns
     Sample.configuration Sample.dumps_error sample_query VNone).
#[local] Abbreviation sample_target_error :=
  (target_error Sample.pymssql_connect Sample.encode Sample.fetch_columns
     Sample.configuration Sample.dumps_error sample_query VNone).
#[local] Abbreviation sample_target_result cfg :=
  (target_result Sample.pymssql_connect Sample.encode Sample.fetch_columns
     cfg Sample.dumps_error sample_query VNone).
#[local] Abbreviation sample_fatally_fails :=
  (fatally_fails Sample.pymssql_connect Sample.encode Sample.fetch_columns
     Sample.configuration Sample.dumps_error sample_query VNone).
#[local] Abbreviation sample_interrupted cfg :=
  (interrupted Sample.pymssql_connect Sample.encode Sample.fetch_columns
     cfg Sample.dumps_error sample_query VNone).
#[local] Abbreviation sample_discovery cfg :=
  (discovery Sample.pymssql_connect Sample.encode Sample.fetch_columns cfg
    Sample.dumps_error
     VNone).

(** db1 raises in the loop, db2 answers after it: the aggregate has the
    rows of db0 and db2, the error of db3, and db1 is only logged. *)
Lemma fan_out_isolates_fatal_target_witness :
  ∃ rs err,
    outcome_of (sample_run_query Sample.configuration) = Ret (Json rs, err)
    ∧ rs_rows rs =
        map (fmap json_default)
          (concat (map sample_target_rows
                       ([Sample.target "db0"]
                        ++ [Sample.target "db2"; Sample.target "db3"])))
    ∧ last (omap sample_target_error
                 ([Sample.target "db0"]
                  ++ [Sample.target "db2"; Sample.target "db3"])) = Some err
    ∧ EvLogException (OtherException "boom")
        ∈ trace_of (sample_run_query Sample.configuration).
Proof.
  apply (fan_out_isolates_fatal_target Sample.pymssql_connect Sample.encode
           Sample.fetch_columns Sample.configuration Sample.dumps_error
           sample_query VNone Sample.targets_doc
           [Sample.target "db0"] (Sample.target "db1")
           [Sample.target "db2"; Sample.target "db3"]
           (OtherException "boom") (Sample.target "db2")).
  - vm_compute. reflexivity.
  - reflexivity.
  - vm_compute. reflexivity.
  - reflexivity.
  - apply elem_of_cons. left. reflexivity.
  - vm_compute. eexists. reflexivity.
  - repeat constructor; vm_compute; reflexivity.
Defined.

(** Three rows come back: one of db0, two of db2, none of db1 (raised)
    and none of db3 (reported an error). *)
Lemma run_query_row_count_witness :
  let survivors :=
    filter (λ d, sample_fatally_fails d = false) (rs_rows Sample.targets_doc) in
  ∃ rs err,
    outcome_of (sample_run_query Sample.configuration) = Ret (Json rs, err)
    ∧ length (rs_rows rs) =
        sum_list_with (λ d, length (sample_target_rows d)) survivors
    ∧ rs_rows rs =
        map (fmap json_default) (concat (map sample_target_rows survivors)).
Proof.
  apply (run_query_row_count Sample.pymssql_connect Sample.encode
           Sample.fetch_columns Sample.configuration Sample.dumps_error
           sample_query VNone Sample.targets_doc (Sample.target "db0")).
  - vm_compute. reflexivity.
  - apply elem_of_cons. left. reflexivity.
  - vm_compute. eexists. reflexivity.
  - repeat constructor; vm_compute; reflexivity.
Defined.

(** The claim as it was worded fails on a non-empty target list: the
    master database "lonely" lists db1 alone, whose execution raises.
    The sum over the targets that did not fatally fail is 0, but there is
    no aggregated result with 0 rows: [run_query] raises. *)
Lemma run_query_row_count_counterexample :
  rs_rows Sample.lonely_doc ≠ []
  ∧ outcome_of (sample_discovery (Sample.configuration_with "lonely")) =
      Ret (Some (Json Sample.lonely_doc), ONone)
  ∧ outcome_of (sample_run_query (Sample.configuration_with "lonely")) =
      Raise (UnboundLocalError "results")
  ∧ ¬ ∃ rs err,
        outcome_of (sample_run_query (Sample.configuration_with "lonely")) =
          Ret (Json rs, err)
        ∧ length (rs_rows rs) =
            sum_list_with
              (λ d, length (target_rows Sample.pymssql_connect Sample.encode
                              Sample.fetch_columns
                              (Sample.configuration_with "lonely")
                              Sample.dumps_error sample_query VNone d))
              (filter
                 (λ d, fatally_fails Sample.pymssql_connect Sample.encode
                         Sample.fetch_columns
                         (Sample.configuration_with "lonely")
                         Sample.dumps_error sample_query VNone d = false)
                 (rs_rows Sample.lonely_doc)).
Proof.
  split; [discriminate|].
  split; [vm_compute; reflexivity|].
  split; [vm_compute; reflexivity|].
  intros (rs & err & Hret & _). vm_compute in Hret. discriminate Hret.
Qed.

(** A master database whose discovery query fails. *)
Lemma discovery_failure_is_fatal_witness :
  ∃ e,
    outcome_of (sample_run_query (Sample.configuration_with "db3")) = Raise e
    ∧ (∀ j err,
         outcome_of (sample_discovery (Sample.configuration_with "db3")) =
           Ret (j, err) →
         err ≠ ONone → e = PyException "Failed retrieving datasources.")
    ∧ trace_of (sample_run_query (Sample.configuration_with "db3")) =
        trace_of (sample_discovery (Sample.configuration_with "db3"))
    ∧ connected_databases
        (trace_of (sample_run_query (Sample.configuration_with "db3"))) =
        [VStr (cfg_get (cfg_master_db (Sample.configuration_with "db3")) "")].
Proof.
  apply (discovery_failure_is_fatal Sample.pymssql_connect Sample.encode
           Sample.fetch_columns (Sample.configuration_with "db3")
           Sample.dumps_error
           sample_query VNone).
  intros doc. vm_compute. discriminate.
Defined.

(** The columns of the aggregate are those of db2, the last target that
    produced a Result Set; db3 after it produced none. *)
Lemma last_write_wins_schema_witness :
  ∃ pre d post last_doc,
    rs_rows Sample.targets_doc = pre ++ d :: post
    ∧ sample_target_result Sample.configuration d = Some last_doc
    ∧ Forall (λ d', sample_target_result Sample.configuration d' = None) post
    ∧ rs_columns Sample.aggregate = rs_columns last_doc.
Proof.
  apply (last_write_wins_schema Sample.pymssql_connect Sample.encode
           Sample.fetch_columns Sample.configuration
           Sample.dumps_error sample_query VNone
           Sample.targets_doc Sample.aggregate
           (OStr "Invalid object name")).
  - vm_compute. reflexivity.
  - vm_compute. reflexivity.
Defined.

(** A master database that lists db1 alone, and db1 raises. *)
Lemma run_query_without_result_raises_witness :
  ∃ e,
    outcome_of (sample_run_query (Sample.configuration_with "lonely")) =
      Raise e
    ∧ (Forall (λ d, sample_interrupted (Sample.configuration_with "lonely") d
                    = false)
              (rs_rows Sample.lonely_doc) →
       e = UnboundLocalError "results").
Proof.
  apply (run_query_without_result_raises Sample.pymssql_connect Sample.encode
           Sample.fetch_columns (Sample.configuration_with "lonely")
           Sample.dumps_error
           sample_query VNone Sample.lonely_doc).
  - vm_compute. reflexivity.
  - repeat constructor; vm_compute; reflexivity.
Defined.

(** A database the server does not know: [pymssql.connect] raises. *)
Lemma connection_error_escapes_witness :
  outcome_of (single_target Sample.pymssql_connect Sample.encode
                Sample.fetch_columns Sample.configuration Sample.dumps_error
                "SELECT 1" VNone (VStr "offline")) =
    Raise (UnboundLocalError "connection").
Proof.
  apply (connection_error_escapes Sample.pymssql_connect Sample.encode
           Sample.fetch_columns Sample.configuration
           Sample.dumps_error "SELECT 1" VNone
           (VStr "offline")
           [OTuple [OInt 20002; OStr "Adaptive Server connection failed"]]).
  reflexivity.
Defined.

(** With default database Sales: (Sales, Orders, id) is filed under
    Orders and (dbo2, Orders, id) under dbo2.Orders. *)
Lemma qualified_name_rule_witness :
  (outcome_of (table_name_of Sample.configuration
                 (Sample.table_row "Sales" "Orders" "id") (∅ : Schema)) =
     Ret (VStr "Orders")
   ∧ outcome_of (add_row Sample.configuration
                   (Sample.table_row "Sales" "Orders" "id") ∅) = Ret tt
   ∧ columns_in (locals_of (add_row Sample.configuration
                   (Sample.table_row "Sales" "Orders" "id") ∅)) (VStr "Orders") =
       columns_in ∅ (VStr "Orders") ++ [VStr "id"])
  ∧ (outcome_of (table_name_of Sample.configuration
                   (Sample.table_row "dbo2" "Orders" "id") (∅ : Schema)) =
       Ret (VStr "dbo2.Orders")
     ∧ outcome_of (add_row Sample.configuration
                     (Sample.table_row "dbo2" "Orders" "id") ∅) = Ret tt
     ∧ columns_in (locals_of (add_row Sample.configuration
                     (Sample.table_row "dbo2" "Orders" "id") ∅))
                  (VStr "dbo2.Orders") =
         columns_in ∅ (VStr "dbo2.Orders") ++ [VStr "id"]).
Proof.
  split.
  - apply (qualified_name_rule Sample.configuration
             (Sample.table_row "Sales" "Orders" "id") ∅
             "Sales" "Sales" "Orders" "id"); reflexivity.
  - apply (qualified_name_rule Sample.configuration
             (Sample.table_row "dbo2" "Orders" "id") ∅
             "Sales" "dbo2" "Orders" "id"); reflexivity.
Defined.

(** Two runs against the unchanged Sales database, each on a fresh
    dict. *)
Lemma get_tables_run_to_run_witness :
  let run1 := _get_tables Sample.pymssql_connect Sample.encode
                Sample.fetch_columns Sample.configuration
                Sample.dumps_error ∅ in
  let run2 := _get_tables Sample.pymssql_connect_again Sample.encode
                Sample.fetch_columns Sample.configuration
                Sample.dumps_error ∅ in
  outcome_of run1 = outcome_of run2
  ∧ locals_of run1 = locals_of run2
  ∧ (Forall (λ row, is_Some (row_entry Sample.configuration row))
            (rs_rows Sample.tables_doc) →
     returned (outcome_of run1) = true
     ∧ ∀ key, columns_in (locals_of run1) key =
              columns_in ∅ key
              ++ columns_for Sample.configuration key
                   (rs_rows Sample.tables_doc)).
Proof.
  apply (get_tables_run_to_run Sample.pymssql_connect
           Sample.pymssql_connect_again Sample.encode Sample.fetch_columns
           Sample.configuration Sample.dumps_error ∅ Sample.tables_doc).
  - vm_compute. reflexivity.
  - vm_compute. reflexivity.
Defined.

(** The dict is the caller's: a second run on the dict the first run
    filled appends every column again. *)
Lemma get_tables_on_a_used_dict :
  let first := _get_tables Sample.pymssql_connect Sample.encode
                 Sample.fetch_columns Sample.configuration
                 Sample.dumps_error ∅ in
  let second := _get_tables Sample.pymssql_connect Sample.encode
                  Sample.fetch_columns Sample.configuration Sample.dumps_error
                  (locals_of first) in
  columns_in (locals_of first) (VStr "Orders") = [VStr "id"; VStr "total"]
  ∧ columns_in (locals_of second) (VStr "Orders") =
      [VStr "id"; VStr "total"; VStr "id"; VStr "total"].
Proof. vm_compute. split; reflexivity. Qed.

(** ** The less friendly servers, run *)

#[local] Abbreviation sample_single_target db :=
  (single_target Sample.pymssql_connect Sample.encode Sample.fetch_columns
     Sample.configuration Sample.dumps_error sample_query VNone (VStr db)).
#[local] Abbreviation edge_single_target db :=
  (single_target Edge.pymssql_connect Sample.encode Sample.fetch_columns
     Sample.configuration Sample.dumps_error sample_query VNone (VStr db)).
#[local] Abbreviation sample_connect_args db :=
  (connect_args Sample.configuration (VStr db)).

Lemma result_excludes_error_witness :
  Some (Json Edge.db0_doc) = None ∨ ONone = ONone.
Proof.
  apply (result_excludes_error Sample.pymssql_connect Sample.encode
           Sample.fetch_columns Sample.configuration
           Sample.dumps_error sample_query VNone
           (VStr "db0")).
  vm_compute. reflexivity.
Defined.

(** db2 fetched a UUID; its rows hold the string. *)
Lemma result_rows_are_serialised_witness :
  Forall (λ row : Row,
            ∀ k v, row !! k = Some v →
                   k ∈ map col_name (rs_columns Sample.db2_doc)
                   ∧ ∀ s, v ≠ VUuid s)
         (rs_rows Sample.db2_doc).
Proof.
  apply (result_rows_are_serialised Sample.pymssql_connect Sample.encode
           Sample.fetch_columns Sample.configuration
           Sample.dumps_error sample_query VNone
           (VStr "db2") Sample.db2_doc ONone).
  vm_compute. reflexivity.
Defined.

Lemma query_result_is_returned_witness :
  ∃ doc,
    outcome_of (sample_single_target "db0") = Ret (Some (Json doc), ONone)
    ∧ rs_columns doc =
        Sample.fetch_columns
          (map (λ i, (i.1, types_map_get i.2)) Edge.db0_descr)
    ∧ length (rs_rows doc) = length Edge.db0_data
    ∧ trace_of (sample_single_target "db0") =
        [EvConnect (sample_connect_args "db0"); EvCursor;
         EvLogDebug sample_query; EvExecute sample_query;
         EvFetchall; EvCursorClose; EvClose].
Proof.
  apply (query_result_is_returned Sample.pymssql_connect Sample.encode
           Sample.fetch_columns Sample.configuration
           Sample.dumps_error sample_query VNone
           (VStr "db0") (Sample.answers Edge.db0_descr Edge.db0_data)
           sample_query
           (Edge.cursor_of (Ret (Edge.executed (Some Edge.db0_descr)
                                   Edge.db0_data)))
           (Edge.executed (Some Edge.db0_descr) Edge.db0_data)
           Edge.db0_data Edge.db0_descr); reflexivity.
Defined.

Lemma no_description_is_reported_witness :
  outcome_of (edge_single_target "ddl") =
    Ret (None, OStr "No data was returned.")
  ∧ trace_of (edge_single_target "ddl") =
      [EvConnect (sample_connect_args "ddl"); EvCursor;
       EvLogDebug sample_query; EvExecute sample_query;
       EvFetchall; EvCursorClose; EvClose].
Proof.
  apply (no_description_is_reported Edge.pymssql_connect Sample.encode
           Sample.fetch_columns Sample.configuration
           Sample.dumps_error sample_query VNone
           (VStr "ddl")
           (Edge.connection_of (Ret (Edge.executed None [[VInt 1]])) (Ret tt))
           sample_query
           (Edge.cursor_of (Ret (Edge.executed None [[VInt 1]])))
           (Edge.executed None [[VInt 1]]) [[VInt 1]]); reflexivity.
Defined.

Lemma interrupt_is_reported_witness :
  outcome_of (edge_single_target "cancelled") =
    Ret (None, OStr "Query cancelled by user.")
  ∧ ∃ t, trace_of (edge_single_target "cancelled") =
           t ++ [EvCancel; EvClose].
Proof.
  apply (interrupt_is_reported Edge.pymssql_connect Sample.encode
           Sample.fetch_columns Sample.configuration
           Sample.dumps_error sample_query VNone
           (VStr "cancelled")
           (Edge.connection_of (Raise KeyboardInterrupt) (Ret tt))
           sample_query (Edge.cursor_of (Raise KeyboardInterrupt)));
    try reflexivity.
  left. reflexivity.
Defined.

(** The query on "stuck" succeeds, the close does not. *)
Lemma close_failure_replaces_outcome_witness :
  outcome_of (edge_single_target "stuck") =
    Raise (OtherException "close failed").
Proof.
  apply (close_failure_replaces_outcome Edge.pymssql_connect Sample.encode
           Sample.fetch_columns Sample.configuration
           Sample.dumps_error sample_query VNone
           (VStr "stuck")
           (Edge.connection_of
              (Ret (Edge.executed (Some [("id", 3%Z)]) [[VInt 1]]))
              (Raise (OtherException "close failed")))); reflexivity.
Defined.

(** db1 raises, and what it raises is neither of the two. *)
Lemma driver_errors_never_escape_witness :
  (∀ args, OtherException "boom" ≠ PymssqlError args)
  ∧ OtherException "boom" ≠ KeyboardInterrupt.
Proof.
  apply (driver_errors_never_escape Sample.pymssql_connect Sample.encode
           Sample.fetch_columns Sample.configuration
           Sample.dumps_error sample_query VNone
           (VStr "db1")).
  - intros connection. vm_compute. intros [= <-]. split; reflexivity.
  - vm_compute. reflexivity.
Defined.

(** "Statement not executed" comes back as "t". *)
Lemma one_string_error_is_cut_witness :
  outcome_of (edge_single_target "norows") = Ret (None, OStr "t").
Proof.
  apply (one_string_error_is_cut Edge.pymssql_connect Sample.encode
           Sample.fetch_columns Sample.configuration
           Sample.dumps_error sample_query VNone
           (VStr "norows")
           (Edge.connection_of
              (Raise (PymssqlError [OStr "Statement not executed"])) (Ret tt))
           sample_query
           (Edge.cursor_of
              (Raise (PymssqlError [OStr "Statement not executed"])))
           "Statement not executed"); reflexivity.
Defined.

Lemma query_error_is_reported_witness :
  outcome_of (sample_single_target "db3") =
    Ret (None, OStr "Invalid object name").
Proof.
  apply (query_error_is_reported Sample.pymssql_connect Sample.encode
           Sample.fetch_columns Sample.configuration
           Sample.dumps_error sample_query VNone
           (VStr "db3")
           (Sample.fails_with
              (PymssqlError [OInt 208; OStr "Invalid object name"]))
           sample_query
           (Edge.cursor_of
              (Raise (PymssqlError [OInt 208; OStr "Invalid object name"])))
           [OInt 208; OStr "Invalid object name"]); reflexivity.
Defined.

Lemma connections_follow_discovery_order_witness :
  connected_databases (trace_of (sample_run_query Sample.configuration)) =
    VStr (cfg_get (cfg_master_db Sample.configuration) "")
    :: omap (λ d : Row, d !! "datasource")
            (attempted Sample.pymssql_connect Sample.encode
               Sample.fetch_columns Sample.configuration
               Sample.dumps_error sample_query VNone
               (rs_rows Sample.targets_doc)).
Proof.
  apply (connections_follow_discovery_order Sample.pymssql_connect
           Sample.encode Sample.fetch_columns Sample.configuration
           Sample.dumps_error
           sample_query VNone Sample.targets_doc).
  vm_compute. reflexivity.
Defined.

(** db3, the last target, reports an error; the rows of db0 and db2 come
    back with it. *)
Lemma run_query_reports_last_error_witness :
  ∃ rs,
    outcome_of (sample_run_query Sample.configuration) =
      Ret (Json rs, OStr "Invalid object name")
    ∧ rs_rows rs =
        map (fmap json_default)
            (concat (map sample_target_rows Edge.three_targets)).
Proof.
  apply (run_query_reports_last_error Sample.pymssql_connect Sample.encode
           Sample.fetch_columns Sample.configuration
           Sample.dumps_error sample_query VNone
           Sample.targets_doc Edge.three_targets (Sample.target "db3")
           (OStr "Invalid object name") (Sample.target "db0")).
  - vm_compute. reflexivity.
  - reflexivity.
  - vm_compute. reflexivity.
  - apply elem_of_cons. left. reflexivity.
  - vm_compute. eexists. reflexivity.
  - repeat constructor; vm_compute; reflexivity.
Defined.

Lemma aggregate_rows_are_target_rows_witness :
  rs_rows Sample.aggregate =
    concat (map sample_target_rows (rs_rows Sample.targets_doc)).
Proof.
  apply (aggregate_rows_are_target_rows Sample.pymssql_connect Sample.encode
           Sample.fetch_columns Sample.configuration
           Sample.dumps_error sample_query VNone
           Sample.targets_doc Sample.aggregate (OStr "Invalid object name")).
  - vm_compute. reflexivity.
  - vm_compute. reflexivity.
Defined.

(** A schema database whose metadata query fails. *)
Lemma introspection_failure_is_fatal_witness :
  ∃ e,
    outcome_of (_get_tables Sample.pymssql_connect Sample.encode
                  Sample.fetch_columns
                  (Edge.configuration_with_db (Some "db3"))
                    Sample.dumps_error ∅) = Raise e
    ∧ (∀ j err,
         outcome_of (introspection Sample.pymssql_connect Sample.encode
                       Sample.fetch_columns
                       (Edge.configuration_with_db (Some "db3"))
                         Sample.dumps_error) =
           Ret (j, err) →
         err ≠ ONone → e = PyException "Failed getting schema.")
    ∧ locals_of (_get_tables Sample.pymssql_connect Sample.encode
                   Sample.fetch_columns
                   (Edge.configuration_with_db (Some "db3"))
                     Sample.dumps_error ∅) = ∅
    ∧ trace_of (_get_tables Sample.pymssql_connect Sample.encode
                  Sample.fetch_columns
                  (Edge.configuration_with_db (Some "db3"))
                    Sample.dumps_error ∅) =
        trace_of (introspection Sample.pymssql_connect Sample.encode
                    Sample.fetch_columns
                    (Edge.configuration_with_db (Some "db3"))
                      Sample.dumps_error).
Proof.
  apply (introspection_failure_is_fatal Sample.pymssql_connect Sample.encode
           Sample.fetch_columns (Edge.configuration_with_db (Some "db3"))
           Sample.dumps_error ∅).
  intros doc. vm_compute. discriminate.
Defined.

Lemma get_tables_files_entries_by_name_witness :
  dict_key (entry_name {| entry_name := VStr "dbo2.Orders";
                          entry_columns := [VStr "id"] |}) =
    VStr "dbo2.Orders".
Proof.
  apply (get_tables_files_entries_by_name Sample.pymssql_connect
           Sample.encode Sample.fetch_columns Sample.configuration
           Sample.dumps_error ∅).
  - intros k entry H. rewrite lookup_empty in H. discriminate H.
  - vm_compute. reflexivity.
Defined.

(** No [db] in the configuration: the metadata of the default database
    is fetched, and its first row raises. *)
Lemma get_tables_needs_db_witness :
  (is_Some (Sample.table_row "Sales" "Orders" "id" !! "table_schema") →
   outcome_of (_get_tables Edge.pymssql_connect Sample.encode
                 Sample.fetch_columns (Edge.configuration_with_db None)
                 Sample.dumps_error ∅) =
     Raise (KeyError "db"))
  ∧ locals_of (_get_tables Edge.pymssql_connect Sample.encode
                 Sample.fetch_columns (Edge.configuration_with_db None)
                 Sample.dumps_error ∅) = ∅.
Proof.
  apply (get_tables_needs_db Edge.pymssql_connect Sample.encode
           Sample.fetch_columns (Edge.configuration_with_db None)
           Sample.dumps_error ∅
           Sample.tables_doc).
  - reflexivity.
  - vm_compute. reflexivity.
Defined.

(** The close of "halt" is interrupted: db2, listed after it, is never
    connected to. *)
Lemma interrupt_ends_run_query_witness :
  outcome_of (run_query Edge.pymssql_connect Sample.encode
                Sample.fetch_columns (Sample.configuration_with "watched")
                Sample.dumps_error
                sample_query VNone rq_unbound) = Raise KeyboardInterrupt
  ∧ connected_databases
      (trace_of (run_query Edge.pymssql_connect Sample.encode
                   Sample.fetch_columns (Sample.configuration_with "watched")
                   Sample.dumps_error
                   sample_query VNone rq_unbound)) =
      VStr (cfg_get (cfg_master_db (Sample.configuration_with "watched")) "")
      :: omap (λ d : Row, d !! "datasource")
              ([Sample.target "db0"] ++ [Sample.target "halt"]).
Proof.
  apply (interrupt_ends_run_query Edge.pymssql_connect Sample.encode
           Sample.fetch_columns (Sample.configuration_with "watched")
           Sample.dumps_error
           sample_query VNone Edge.watched_doc
           [Sample.target "db0"] (Sample.target "halt")
           [Sample.target "db2"] KeyboardInterrupt).
  - vm_compute. reflexivity.
  - reflexivity.
  - repeat constructor; vm_compute; reflexivity.
  - vm_compute. reflexivity.
  - reflexivity.
Defined.

(** The column of "photos" cannot be written: the call raises, having
    closed the connection and not the cursor. *)
Lemma unwritable_data_is_fatal_witness :
  outcome_of (single_target Edge.pymssql_connect Sample.encode
                Sample.fetch_columns Sample.configuration Edge.dumps_error
                sample_query VNone (VStr "photos")) =
    Raise (OtherException "UnicodeDecodeError")
  ∧ trace_of (single_target Edge.pymssql_connect Sample.encode
                Sample.fetch_columns Sample.configuration Edge.dumps_error
                sample_query VNone (VStr "photos")) =
      [EvConnect (sample_connect_args "photos"); EvCursor;
       EvLogDebug sample_query; EvExecute sample_query; EvFetchall;
       EvClose].
Proof.
  apply (unwritable_data_is_fatal Edge.pymssql_connect Sample.encode
           Sample.fetch_columns Sample.configuration Edge.dumps_error
           sample_query VNone (VStr "photos")
           (Edge.connection_of
              (Ret (Edge.executed (Some [("photo", 1%Z)]) [[VStr "JFIF"]]))
              (Ret tt))
           sample_query
           (Edge.cursor_of
              (Ret (Edge.executed (Some [("photo", 1%Z)]) [[VStr "JFIF"]])))
           (Edge.executed (Some [("photo", 1%Z)]) [[VStr "JFIF"]])
           [[VStr "JFIF"]] [("photo", 1%Z)]
           (OtherException "UnicodeDecodeError")); try reflexivity.
  intros args. discriminate.
Defined.
